(** * gclint: a shallow embedding of the analyzer and its specification

    The analyzer of [gclint.go] walks the syntax trees of a package and
    reports three suspicious uses of [ir.Node].  This development embeds
    the data the analyzer reads ([go/token], [go/ast] and [go/types], as
    far as the code looks at them), the analyzer itself, and proves the
    properties its specification states. *)

From Stdlib Require Import ZArith String List Bool Lia.
From stdpp Require Import base option list gmap strings.

Local Open Scope string_scope.
Local Open Scope list_scope.
Local Set Warnings "-register-all".

(** ** Run-time panics

    A Go function either returns or panics.  [Res A] is the outcome of a
    call that returns an [A]; the panic value says which run-time check
    failed, or carries the text given to [panic]. *)

Inductive PanicValue : Type :=
| IndexOutOfRange                 (* s[i] with i outside 0 <= i < len(s) *)
| InterfaceConversion             (* x.(T) without comma-ok, x not a T *)
| NilDereference                  (* method call on a nil interface *)
| PanicString (s : string).       (* panic(fmt.Sprintf(...)) *)

Inductive Res (A : Type) : Type :=
| Ok (a : A)
| Panic (v : PanicValue).
Arguments Ok {A} a.
Arguments Panic {A} v.

Definition bindRes {A B} (m : Res A) (k : A -> Res B) : Res B :=
  match m with
  | Ok a => k a
  | Panic v => Panic v
  end.

Notation "'let!' x ':=' m 'in' k" := (bindRes m (fun x => k))
  (at level 10, x name, m at level 100, k at level 200).

(** [s[i]] on a slice, with Go's bounds check; indices are Go [int]s. *)
Definition index {A} (s : list A) (i : Z) : Res A :=
  if (i <? 0)%Z then Panic IndexOutOfRange
  else match s !! Z.to_nat i with
       | Some a => Ok a
       | None => Panic IndexOutOfRange
       end.

Definition len {A} (s : list A) : Z := Z.of_nat (length s).

(** ** go/token *)

Module token.

(** [token.Pos]: an offset into the file set; [NoPos] is zero. *)
Definition Pos := Z.
Definition NoPos : Pos := 0%Z.
Definition IsValid (p : Pos) : bool := negb (p =? NoPos)%Z.

(** The operator tokens a binary expression can carry. *)
Inductive Token : Type :=
| ADD | SUB | MUL | QUO | REM
| AND | OR | XOR | SHL | SHR | AND_NOT
| LAND | LOR
| EQL | LSS | GTR | NEQ | LEQ | GEQ.

Definition eqb (a b : Token) : bool :=
  match a, b with
  | ADD, ADD | SUB, SUB | MUL, MUL | QUO, QUO | REM, REM
  | AND, AND | OR, OR | XOR, XOR | SHL, SHL | SHR, SHR
  | AND_NOT, AND_NOT | LAND, LAND | LOR, LOR
  | EQL, EQL | LSS, LSS | GTR, GTR | NEQ, NEQ | LEQ, LEQ | GEQ, GEQ => true
  | _, _ => false
  end.

End token.

(** ** go/types

    Only what the analyzer inspects: the dynamic type of a [types.Type]
    value, the package and name of an object, the parameters and results
    of a signature, and the mode of a [TypeAndValue]. *)

Module types.

Record Package : Type := mkPackage { Path : string }.

Inductive BasicKind : Type :=
| Invalid | Bool | Int | String_ | UntypedBool | UntypedInt | UntypedNil.

(** What an object is: [*types.Var] (with its field flag), [*types.Func],
    [*types.TypeName], ... *)
Inductive ObjectKind : Type :=
| PkgName | Const | TypeName | Var (isField : bool) | Func | Label | Builtin.

(** A [types.Type] interface value: [TNil] is the nil interface, every
    other constructor is one dynamic type.  A [types.Object] is never
    nil here; where the code can meet a nil object it is an [option]. *)
Inductive Type_ : Type :=
| TNil
| Basic (kind : BasicKind)
| Named (obj : Object)
| Pointer (elem : Type_)
| Slice (elem : Type_)
| Signature (params results : list Object) (variadic : bool)
| Array (elem : Type_)
| Map (key elem : Type_)
| Struct (fields : list Object)
| Interface (methods : list Object)
with Object : Type :=
| mkObject (kind : ObjectKind) (pkg : option Package) (name : string) (typ : Type_).

Definition Pkg (o : Object) : option Package := let 'mkObject _ p _ _ := o in p.
Definition Name (o : Object) : string := let 'mkObject _ _ n _ := o in n.
Definition Kind (o : Object) : ObjectKind := let 'mkObject k _ _ _ := o in k.
Definition TypeOf (o : Object) : Type_ := let 'mkObject _ _ _ t := o in t.

(** [Tuple.Len] and [Tuple.At]; a tuple is its list of variables.  The
    tuple without variables is the nil pointer: [Len] answers zero on
    it, and [At], which reads the field [vars] of its receiver,
    dereferences nil.  On any other tuple [At] is the indexing
    [t.vars[i]]. *)
Definition At (t : list Object) (i : Z) : Res Object :=
  match t with
  | [] => Panic NilDereference
  | _ :: _ => index t i
  end.

(** The mode of an operand, as the type checker records it. *)
Inductive operandMode : Type :=
| invalid | novalue | builtin | typexpr
| constant_ | variable | mapindex | value | commaok.

Record TypeAndValue : Type := mkTV { mode : operandMode; Type' : Type_ }.

(** The zero [TypeAndValue], which a map lookup yields for a missing key. *)
Definition zeroTV : TypeAndValue := mkTV invalid TNil.

Definition IsValue (tv : TypeAndValue) : bool :=
  match mode tv with
  | constant_ | variable | mapindex | value | commaok => true
  | _ => false
  end.

Definition IsNil (tv : TypeAndValue) : bool :=
  match mode tv, Type' tv with
  | value, Basic UntypedNil => true
  | _, _ => false
  end.

End types.

(** ** go/ast

    A node is a pointer to a struct; the model keeps the address of the
    struct next to its fields.  Comparing two nodes with [==] compares
    the pointers, and the maps of [types.Info] are keyed by them.  The
    node kinds the analyzer tells apart have a constructor each, with the
    fields it reads and the children a traversal visits; every other
    expression is an [OtherExpr], every other statement, declaration,
    specification or file an [OtherNode]. *)

Module ast.

Definition addr := nat.

Record Ident : Type := mkIdent { IdentAddr : addr; NamePos : token.Pos; Name : string }.

Inductive Node : Type :=
| IdentExpr (id : Ident)
| SelectorExpr (a : addr) (X : Node) (Sel : Ident)
| BinaryExpr (a : addr) (X : Node) (Op : token.Token) (Y : Node)
| CallExpr (a : addr) (Fun : Node) (Args : list Node) (Ellipsis : token.Pos)
| MapType (a : addr) (Map : token.Pos) (Key Value : Node)
| FuncLit (a : addr) (Type_ Body : Node)
| OtherExpr (a : addr) (pos : token.Pos) (children : list Node)
| AssignStmt (a : addr) (Lhs Rhs : list Node)
| ReturnStmt (a : addr) (Return : token.Pos) (Results : list Node)
| FuncDecl (a : addr) (Recv : option Node) (Name : Ident) (Type_ : Node) (Body : option Node)
| OtherNode (a : addr) (pos : token.Pos) (children : list Node).

Definition addrOf (n : Node) : addr :=
  match n with
  | IdentExpr id => IdentAddr id
  | SelectorExpr a _ _ | BinaryExpr a _ _ _ | CallExpr a _ _ _
  | MapType a _ _ _ | FuncLit a _ _ | OtherExpr a _ _
  | AssignStmt a _ _ | ReturnStmt a _ _ | FuncDecl a _ _ _ _
  | OtherNode a _ _ => a
  end.

(** [x == y] on two nodes held in interface values. *)
Definition same (x y : Node) : bool := Nat.eqb (addrOf x) (addrOf y).

(** Whether the node implements [ast.Expr]. *)
Definition isExpr (n : Node) : bool :=
  match n with
  | IdentExpr _ | SelectorExpr _ _ _ | BinaryExpr _ _ _ _ | CallExpr _ _ _ _
  | MapType _ _ _ _ | FuncLit _ _ _ | OtherExpr _ _ _ => true
  | AssignStmt _ _ _ | ReturnStmt _ _ _ | FuncDecl _ _ _ _ _ | OtherNode _ _ _ => false
  end.

(** [n.Pos()]: the position of the first character of the node.  The
    analyzer asks for it on expressions only; an assignment without a
    left-hand side has none. *)
Fixpoint Pos (n : Node) : token.Pos :=
  match n with
  | IdentExpr id => NamePos id
  | SelectorExpr _ X _ => Pos X
  | BinaryExpr _ X _ _ => Pos X
  | CallExpr _ Fun _ _ => Pos Fun
  | MapType _ Map _ _ => Map
  | FuncLit _ Type_ _ => Pos Type_
  | OtherExpr _ pos _ => pos
  | AssignStmt _ Lhs _ => match Lhs with x :: _ => Pos x | [] => token.NoPos end
  | ReturnStmt _ Return _ => Return
  | FuncDecl _ _ _ Type_ _ => Pos Type_
  | OtherNode _ pos _ => pos
  end.

(** The children of a node, in the order [ast.Walk] visits them. *)
Definition optNode (o : option Node) : list Node :=
  match o with Some n => [n] | None => [] end.

Definition children (n : Node) : list Node :=
  match n with
  | IdentExpr _ => []
  | SelectorExpr _ X Sel => [X; IdentExpr Sel]
  | BinaryExpr _ X _ Y => [X; Y]
  | CallExpr _ Fun Args _ => Fun :: Args
  | MapType _ _ Key Value => [Key; Value]
  | FuncLit _ Type_ Body => [Type_; Body]
  | OtherExpr _ _ cs => cs
  | AssignStmt _ Lhs Rhs => Lhs ++ Rhs
  | ReturnStmt _ _ Results => Results
  | FuncDecl _ Recv Name Type_ Body =>
      optNode Recv ++ [IdentExpr Name; Type_] ++ optNode Body
  | OtherNode _ _ cs => cs
  end.

End ast.

(** ** types.Info and analysis.Pass *)

Module analysis.

(** The three maps of [types.Info] the analyzer consults, keyed by the
    address of the expression or identifier. *)
Record Info : Type := mkInfo {
  Types : gmap ast.addr types.TypeAndValue;
  Defs : gmap ast.addr types.Object;
  Uses : gmap ast.addr types.Object
}.

(** [info.Types[e]]: the zero value when [e] has no entry. *)
Definition TypesAt (info : Info) (e : ast.Node) : types.TypeAndValue :=
  default types.zeroTV (Types info !! ast.addrOf e).

Record Diagnostic : Type := mkDiagnostic { Pos : token.Pos; Message : string }.

(** The pass: the files under analysis, their type information, and
    the diagnostics reported so far. *)
Record Pass : Type := mkPass {
  Files : list ast.Node;
  TypesInfo : Info;
  Diagnostics : list Diagnostic
}.

(** [pass.Reportf(pos, msg)] appends one diagnostic. *)
Definition Reportf (pos : token.Pos) (msg : string) (pass : Pass) : Pass :=
  mkPass (Files pass) (TypesInfo pass) (Diagnostics pass ++ [mkDiagnostic pos msg]).

End analysis.

(** ** The inspector

    [inspect.Analyzer] hands the analyzer an inspector over the files of
    the pass: the list of push and pop events of a depth-first traversal
    of every file.  [WithStack] runs through the events, keeps the stack
    of the nodes entered and not yet left, and calls [f] at every event;
    when [f] answers [false] at a push, the subtree of that node is
    skipped, its pop event included. *)

Module inspector.

Inductive event : Type :=
| push (n : ast.Node)
| pop (n : ast.Node).

Definition leaf (n : ast.Node) : list event := [push n; pop n].

Fixpoint traverse (n : ast.Node) : list event :=
  push n ::
    match n with
    | ast.IdentExpr _ => []
    | ast.SelectorExpr _ X Sel => traverse X ++ leaf (ast.IdentExpr Sel)
    | ast.BinaryExpr _ X _ Y => traverse X ++ traverse Y
    | ast.CallExpr _ Fun Args _ => traverse Fun ++ concat (map traverse Args)
    | ast.MapType _ _ Key Value => traverse Key ++ traverse Value
    | ast.FuncLit _ Type_ Body => traverse Type_ ++ traverse Body
    | ast.OtherExpr _ _ cs => concat (map traverse cs)
    | ast.AssignStmt _ Lhs Rhs => concat (map traverse Lhs) ++ concat (map traverse Rhs)
    | ast.ReturnStmt _ _ Results => concat (map traverse Results)
    | ast.FuncDecl _ Recv Name Type_ Body =>
        match Recv with Some r => traverse r | None => [] end
        ++ leaf (ast.IdentExpr Name) ++ traverse Type_
        ++ match Body with Some b => traverse b | None => [] end
    | ast.OtherNode _ _ cs => concat (map traverse cs)
    end
    ++ [pop n].

(** [inspector.New(files)] *)
Definition New (files : list ast.Node) : list event := concat (map traverse files).

Section WithStack.
Context {S : Type}.
Variable f : ast.Node -> bool -> list ast.Node -> S -> Res bool * S.

(** [skipping] counts the push events met since [f] asked to prune
    and not yet closed; zero outside a pruned subtree. *)
Fixpoint loop (events : list event) (skipping : nat) (stack : list ast.Node) (s : S)
  : Res unit * S :=
  match events with
  | [] => (Ok tt, s)
  | push n :: events' =>
      match skipping with
      | O =>
          let stack := stack ++ [n] in
          match f n true stack s with
          | (Panic v, s') => (Panic v, s')
          | (Ok true, s') => loop events' 0 stack s'
          | (Ok false, s') => loop events' 1 (removelast stack) s'
          end
      | Datatypes.S k => loop events' (Datatypes.S (Datatypes.S k)) stack s
      end
  | pop n :: events' =>
      match skipping with
      | O =>
          match f n false stack s with
          | (Panic v, s') => (Panic v, s')
          | (Ok _, s') => loop events' 0 (removelast stack) s'
          end
      | Datatypes.S k => loop events' k stack s
      end
  end.

Definition WithStack (events : list event) (s : S) : Res unit * S :=
  loop events 0 [] s.
End WithStack.

End inspector.

(** ** gclint.go *)

Module gclint.

Definition irPkgPath : string := "cmd/compile/internal/ir".

Definition isNamedObject (obj : types.Object) (pkgPath name : string) : bool :=
  match types.Pkg obj with
  | Some pkg => String.eqb (types.Path pkg) pkgPath && String.eqb (types.Name obj) name
  | None => false
  end.

Definition isNamedType (typ : types.Type_) (pkgPath name : string) : bool :=
  match typ with
  | types.Named obj => isNamedObject obj pkgPath name
  | _ => false
  end.

Definition isPtrToNamedType (typ : types.Type_) (pkgPath name : string) : bool :=
  match typ with
  | types.Pointer elem => isNamedType elem pkgPath name
  | _ => false
  end.

Definition isPtrToFuncType (typ : types.Type_) : bool := isPtrToNamedType typ irPkgPath "Func".
Definition isPtrToNameType (typ : types.Type_) : bool := isPtrToNamedType typ irPkgPath "Name".
Definition isNodeType (typ : types.Type_) : bool := isNamedType typ irPkgPath "Node".

Definition isNameDefnField (n : ast.Node) (info : analysis.Info) : bool :=
  match n with
  | ast.SelectorExpr _ _ Sel =>
      match analysis.Uses info !! ast.IdentAddr Sel with
      | Some obj => isNamedObject obj irPkgPath "Defn"
      | None => false
      end
  | _ => false
  end.

(** The loop of [funcScope], from the top of the stack downwards. *)
Fixpoint funcScopeFrom (top_down : list ast.Node) (info : analysis.Info) : Res types.Type_ :=
  match top_down with
  | [] => Panic (PanicString "no enclosing function declaration or literal")
  | n :: below =>
      match n with
      | ast.FuncLit _ _ _ => Ok (types.Type' (analysis.TypesAt info n))
      | ast.FuncDecl _ _ Name _ _ =>
          match analysis.Defs info !! ast.IdentAddr Name with
          | Some obj => Ok (types.TypeOf obj)
          | None => Panic NilDereference
          end
      | _ => funcScopeFrom below info
      end
  end.

Definition funcScope (stack : list ast.Node) (info : analysis.Info) : Res types.Type_ :=
  funcScopeFrom (rev stack) info.

(** [for i, x := range xs { if x == n { ... return } }]: the index of
    the first element that is [n]. *)
Fixpoint rangeFind (n : ast.Node) (xs : list ast.Node) (i : Z) : option Z :=
  match xs with
  | [] => None
  | x :: xs' => if ast.same x n then Some i else rangeFind n xs' (i + 1)%Z
  end.

(** The type assertions to a signature and to a slice, without comma-ok. *)
Definition asSignature (t : types.Type_) : Res (list types.Object * list types.Object * bool) :=
  match t with
  | types.Signature params results variadic => Ok (params, results, variadic)
  | _ => Panic InterfaceConversion
  end.

Definition asSliceElem (t : types.Type_) : Res types.Type_ :=
  match t with
  | types.Slice elem => Ok elem
  | _ => Panic InterfaceConversion
  end.

(** The text of the two [panic(fmt.Sprintf(...))] of [assignedToNode];
    the two nodes formatted into it are left out. *)
Definition didntFind : PanicValue := PanicString "didn't find %v in %v".

Definition assignedToNode (stack : list ast.Node) (info : analysis.Info) : Res bool :=
  let! n := index stack (len stack - 1)%Z in
  let! parent := index stack (len stack - 2)%Z in
  match parent with
  | ast.AssignStmt _ Lhs Rhs =>
      match rangeFind n Rhs 0%Z with
      | Some i =>
          let! lval := index Lhs i in
          if isNameDefnField lval info then Ok false
          else Ok (isNodeType (types.Type' (analysis.TypesAt info lval)))
      | None => Ok false
      end
  | ast.CallExpr _ Fun Args Ellipsis =>
      let tv := analysis.TypesAt info Fun in
      if negb (types.IsValue tv) then Ok false
      else
        let! sig := asSignature (types.Type' tv) in
        let '(params, _, variadic) := sig in
        let nparams := len params in
        match rangeFind n Args 0%Z with
        | Some i =>
            if variadic && negb (token.IsValid Ellipsis) && (nparams - 1 <=? i)%Z then
              let! last := types.At params (nparams - 1)%Z in
              let! elem := asSliceElem (types.TypeOf last) in
              Ok (isNodeType elem)
            else
              let! param := types.At params i in
              Ok (isNodeType (types.TypeOf param))
        | None => Panic didntFind
        end
  | ast.ReturnStmt _ _ Results =>
      let! t := funcScope stack info in
      let! sig := asSignature t in
      let '(_, typ, _) := sig in
      match rangeFind n Results 0%Z with
      | Some i =>
          let! res := types.At typ i in
          Ok (isNodeType (types.TypeOf res))
      | None => Panic didntFind
      end
  | _ => Ok false
  end.

Definition msgMapKey : string :=
  "map with ir.Node key (likely change key type to *ir.Name)".
Definition msgCompare : string :=
  "comparison of ir.Node values (replace with ir.Uses or ir.SameSource)".
Definition msgAssign : string :=
  "*ir.Name assigned to ir.Node (maybe change destination to *ir.Name too)".

(** The type switch of the callback: the map-key and the equality
    detector. *)
Definition typeSwitch (n : ast.Node) (pass : analysis.Pass) : analysis.Pass :=
  let info := analysis.TypesInfo pass in
  match n with
  | ast.MapType _ _ Key _ =>
      if isNodeType (types.Type' (analysis.TypesAt info Key))
      then analysis.Reportf (ast.Pos n) msgMapKey pass
      else pass
  | ast.BinaryExpr _ X Op Y =>
      if token.eqb Op token.EQL || token.eqb Op token.NEQ then
        let xtv := analysis.TypesAt info X in
        let ytv := analysis.TypesAt info Y in
        if types.IsNil xtv || types.IsNil ytv then pass
        else if isPtrToFuncType (types.Type' xtv) || isPtrToFuncType (types.Type' ytv) then pass
        else if isNodeType (types.Type' xtv)
             then analysis.Reportf (ast.Pos n) msgCompare pass
             else pass
      else pass
  | _ => pass
  end.

(** The [if *flagAssign] block of the callback: the assignment-flow
    detector. *)
Definition assignCheck (flagAssign : bool) (n : ast.Node) (stack : list ast.Node)
    (pass : analysis.Pass) : Res unit * analysis.Pass :=
  let info := analysis.TypesInfo pass in
  if flagAssign && ast.isExpr n then
    let tv := analysis.TypesAt info n in
    if types.IsValue tv && isPtrToNameType (types.Type' tv) then
      match assignedToNode stack info with
      | Panic v => (Panic v, pass)
      | Ok true => (Ok tt, analysis.Reportf (ast.Pos n) msgAssign pass)
      | Ok false => (Ok tt, pass)
      end
    else (Ok tt, pass)
  else (Ok tt, pass).

(** The function literal given to [WithStack]. *)
Definition visit (flagAssign : bool) (n : ast.Node) (push : bool) (stack : list ast.Node)
    (pass : analysis.Pass) : Res bool * analysis.Pass :=
  if negb push then (Ok true, pass)
  else
    match assignCheck flagAssign n stack (typeSwitch n pass) with
    | (Panic v, pass') => (Panic v, pass')
    | (Ok _, pass') => (Ok true, pass')
    end.

Definition run (flagAssign : bool) (pass : analysis.Pass) : Res unit * analysis.Pass :=
  let inspect := inspector.New (analysis.Files pass) in
  inspector.WithStack (visit flagAssign) inspect pass.

End gclint.

(** ** Vocabulary of the specification *)

Module spec.

(** The type is a named type with the given name, declared in the
    package with the given path: the exact nominal match. *)
Definition NamedIn (pkgPath name : string) (typ : types.Type_) : Prop :=
  exists kind pkg t,
    typ = types.Named (types.mkObject kind (Some pkg) name t) /\
    types.Path pkg = pkgPath.

Definition PointerToNamedIn (pkgPath name : string) (typ : types.Type_) : Prop :=
  exists elem, typ = types.Pointer elem /\ NamedIn pkgPath name elem.

(** The expression is a selector whose selected identifier resolves to
    an object named "Defn" of the target package. *)
Definition SelectsDefn (info : analysis.Info) (lval : ast.Node) : Prop :=
  exists a X Sel kind pkg t,
    lval = ast.SelectorExpr a X Sel /\
    analysis.Uses info !! ast.IdentAddr Sel
      = Some (types.mkObject kind (Some pkg) "Defn" t) /\
    types.Path pkg = gclint.irPkgPath.

(** [n] sits at index [i] of [xs], and at no earlier index. *)
Definition FoundAt (n : ast.Node) (xs : list ast.Node) (i : nat) : Prop :=
  (exists x, xs !! i = Some x /\ ast.addrOf x = ast.addrOf n) /\
  forall j x, (j < i)%nat -> xs !! j = Some x -> ast.addrOf x <> ast.addrOf n.

(** [n] is none of [xs]. *)
Definition NotAmong (n : ast.Node) (xs : list ast.Node) : Prop :=
  forall x, In x xs -> ast.addrOf x <> ast.addrOf n.

(** The diagnostics a step added to the pass. *)
Definition newDiagnostics (before after : analysis.Pass) : list analysis.Diagnostic :=
  drop (length (analysis.Diagnostics before)) (analysis.Diagnostics after).

(** The positions at which a step reported the message [msg], in the
    order of the reports. *)
Definition emitted (msg : string) (before after : analysis.Pass) : list token.Pos :=
  map analysis.Pos
    (List.filter (fun d => String.eqb (analysis.Message d) msg)
       (newDiagnostics before after)).

(** The diagnostics of the map-key and the equality detector on a
    node, as a list. *)
Definition switchReports (info : analysis.Info) (n : ast.Node) : list analysis.Diagnostic :=
  match n with
  | ast.MapType _ _ Key _ =>
      if gclint.isNodeType (types.Type' (analysis.TypesAt info Key))
      then [analysis.mkDiagnostic (ast.Pos n) gclint.msgMapKey] else []
  | ast.BinaryExpr _ X Op Y =>
      let xtv := analysis.TypesAt info X in
      let ytv := analysis.TypesAt info Y in
      if (token.eqb Op token.EQL || token.eqb Op token.NEQ)
         && negb (types.IsNil xtv || types.IsNil ytv)
         && negb (gclint.isPtrToFuncType (types.Type' xtv)
                  || gclint.isPtrToFuncType (types.Type' ytv))
         && gclint.isNodeType (types.Type' xtv)
      then [analysis.mkDiagnostic (ast.Pos n) gclint.msgCompare] else []
  | _ => []
  end.

(** The parent is neither an assignment, nor a call, nor a return. *)
Definition otherParent (parent : ast.Node) : bool :=
  match parent with
  | ast.AssignStmt _ _ _ | ast.CallExpr _ _ _ _ | ast.ReturnStmt _ _ _ => false
  | _ => true
  end.

(** The node is a function literal or a function declaration. *)
Definition isFunc (n : ast.Node) : bool :=
  match n with
  | ast.FuncLit _ _ _ | ast.FuncDecl _ _ _ _ _ => true
  | _ => false
  end.

(** The nodes entered by a list of events, in the order they are
    entered. *)
Fixpoint pushes (events : list inspector.event) : list ast.Node :=
  match events with
  | [] => []
  | inspector.push n :: events' => n :: pushes events'
  | inspector.pop _ :: events' => pushes events'
  end.

(** The diagnostics of a list that do not carry the message [msg]. *)
Definition withoutMessage (msg : string) (ds : list analysis.Diagnostic)
  : list analysis.Diagnostic :=
  List.filter (fun d => negb (String.eqb (analysis.Message d) msg)) ds.

End spec.

(** ** Sample programs

    Types, expressions and passes on which the theorems below are
    evaluated. *)

Module sample.

Definition irPkg : types.Package := types.mkPackage "cmd/compile/internal/ir".
Definition gcPkg : types.Package := types.mkPackage "cmd/compile/internal/gc".

Definition named (pkg : types.Package) (name : string) : types.Type_ :=
  types.Named (types.mkObject types.TypeName (Some pkg) name types.TNil).

Definition tNode : types.Type_ := named irPkg "Node".
Definition tName : types.Type_ := named irPkg "Name".
Definition tFunc : types.Type_ := named irPkg "Func".
Definition ptrName : types.Type_ := types.Pointer tName.
Definition ptrFunc : types.Type_ := types.Pointer tFunc.
Definition tInt : types.Type_ := types.Basic types.Int.

Definition var (typ : types.Type_) : types.TypeAndValue := types.mkTV types.variable typ.
Definition typexpr (typ : types.Type_) : types.TypeAndValue := types.mkTV types.typexpr typ.
Definition param (name : string) (typ : types.Type_) : types.Object :=
  types.mkObject (types.Var false) (Some gcPkg) name typ.

Definition ident (a : ast.addr) (pos : token.Pos) (name : string) : ast.Node :=
  ast.IdentExpr (ast.mkIdent a pos name).

Definition typesOnly (tys : gmap ast.addr types.TypeAndValue) : analysis.Info :=
  analysis.mkInfo tys ∅ ∅.

Definition passOf (files : list ast.Node) (info : analysis.Info) : analysis.Pass :=
  analysis.mkPass files info [].

(** [map[ir.Node]int] *)
Definition mapKey : ast.Node := ident 2 14%Z "ir.Node".
Definition mapValue : ast.Node := ident 3 22%Z "int".
Definition mapInfo : analysis.Info :=
  typesOnly {[ 2%nat := typexpr tNode; 3%nat := typexpr tInt ]}.

(** [x == y] with [x, y ir.Node]; [x == f] with [f *ir.Func];
    [x == nil]. *)
Definition x : ast.Node := ident 2 30%Z "x".
Definition y : ast.Node := ident 3 35%Z "y".
Definition f : ast.Node := ident 4 35%Z "f".
Definition nil_ : ast.Node := ident 5 35%Z "nil".
Definition eqInfo : analysis.Info :=
  typesOnly {[ 2%nat := var tNode; 3%nat := var tNode; 4%nat := var ptrFunc;
               5%nat := types.mkTV types.value (types.Basic types.UntypedNil) ]}.

(** [x = n] and [v.Defn = n] with [n *ir.Name], [x ir.Node]. *)
Definition n : ast.Node := ident 6 50%Z "n".
Definition v : ast.Node := ident 7 40%Z "v".
Definition DefnSel : ast.Ident := ast.mkIdent 8 42%Z "Defn".
Definition vDefn : ast.Node := ast.SelectorExpr 9 v DefnSel.
Definition assignX : ast.Node := ast.AssignStmt 1 [x] [n].
Definition assignDefn : ast.Node := ast.AssignStmt 1 [vDefn] [n].
Definition DefnField : types.Object :=
  types.mkObject (types.Var true) (Some irPkg) "Defn" tNode.
(** A function of package ir that happens to be called Defn. *)
Definition DefnFunc : types.Object :=
  types.mkObject types.Func (Some irPkg) "Defn" (types.Signature [] [] false).
Definition assignInfo (defn : types.Object) : analysis.Info :=
  analysis.mkInfo
    {[ 2%nat := var tNode; 6%nat := var ptrName; 7%nat := var ptrName; 9%nat := var tNode ]}
    ∅
    {[ 8%nat := defn ]}.

(** [g(n)] for several declarations of [g], and the conversion
    [T(n)]. *)
Definition g : ast.Node := ident 10 60%Z "g".
Definition m : ast.Node := ident 11 64%Z "m".
Definition callG (ellipsis : token.Pos) : ast.Node := ast.CallExpr 1 g [m; n] ellipsis.
Definition callInfo (gtv : types.TypeAndValue) : analysis.Info :=
  typesOnly {[ 10%nat := gtv; 11%nat := var tInt; 6%nat := var ptrName ]}.
(** [func g(a int, rest ...ir.Node)] *)
Definition sigVariadic : types.Type_ :=
  types.Signature [param "a" tInt; param "rest" (types.Slice tNode)] [] true.
(** [func g(a int, b ir.Node)] *)
Definition sigFixed : types.Type_ :=
  types.Signature [param "a" tInt; param "b" tNode] [] false.

(** An expression statement [n] and a unary expression around [n]. *)
Definition exprStmt : ast.Node := ast.OtherNode 1 50%Z [n].
Definition nameInfo : analysis.Info := typesOnly {[ 6%nat := var ptrName ]}.

(** [return n] inside a function literal [func() ir.Node]. *)
Definition returnN : ast.Node := ast.ReturnStmt 12 43%Z [n].
Definition returnNone : ast.Node := ast.ReturnStmt 12 43%Z [].
Definition funcLit (body : ast.Node) : ast.Node :=
  ast.FuncLit 13 (ast.OtherExpr 14 20%Z []) (ast.OtherNode 15 30%Z [body]).
Definition returnInfo : analysis.Info :=
  typesOnly {[ 6%nat := var ptrName;
               13%nat := types.mkTV types.value (types.Signature [] [param "" tNode] false) ]}.

(** A file with one function:
    [func f() ir.Node { var t map[ir.Node]int; _ = x == y; z = n; return r }]
    with [x, y, z ir.Node] and [n, r *ir.Name]. *)
Definition fName : ast.Ident := ast.mkIdent 21 5%Z "f".
Definition z : ast.Node := ident 29 48%Z "z".
Definition r : ast.Node := ident 31 70%Z "r".
Definition file : ast.Node :=
  ast.OtherNode 19 1%Z
    [ast.FuncDecl 20 None fName (ast.OtherExpr 22 6%Z [])
       (Some (ast.OtherNode 23 9%Z
          [ast.OtherNode 24 10%Z [ast.MapType 25 14%Z (ident 26 18%Z "ir.Node") (ident 27 26%Z "int")];
           ast.OtherNode 28 28%Z [ast.BinaryExpr 1 x token.EQL y];
           ast.AssignStmt 30 [z] [n];
           ast.ReturnStmt 32 63%Z [r]]))].
Definition fileInfo : analysis.Info :=
  analysis.mkInfo
    {[ 26%nat := typexpr tNode; 27%nat := typexpr tInt; 2%nat := var tNode;
       3%nat := var tNode; 29%nat := var tNode; 6%nat := var ptrName;
       31%nat := var ptrName ]}
    {[ 21%nat := types.mkObject types.Func (Some gcPkg) "f"
                   (types.Signature [] [param "" tNode] false) ]}
    ∅.

(** [func outer() int { ...; func() ir.Node { return n }; ... }]: the
    stack at [n], from the declaration down. *)
Definition outerName : ast.Ident := ast.mkIdent 41 5%Z "outer".
Definition innerLit : ast.Node :=
  ast.FuncLit 13 (ast.OtherExpr 14 20%Z []) (ast.OtherNode 15 30%Z [returnN]).
Definition outerDecl : ast.Node :=
  ast.FuncDecl 40 None outerName (ast.OtherExpr 42 6%Z [])
    (Some (ast.OtherNode 43 9%Z [ast.OtherNode 44 10%Z [innerLit]])).
Definition nestedStack : list ast.Node :=
  [outerDecl; ast.OtherNode 43 9%Z [ast.OtherNode 44 10%Z [innerLit]];
   ast.OtherNode 44 10%Z [innerLit]; innerLit; ast.OtherNode 15 30%Z [returnN];
   returnN; n].
Definition nestedInfo : analysis.Info :=
  analysis.mkInfo
    {[ 6%nat := var ptrName;
       13%nat := types.mkTV types.value (types.Signature [] [param "" tNode] false) ]}
    {[ 41%nat := types.mkObject types.Func (Some gcPkg) "outer"
                   (types.Signature [] [param "" tInt] false) ]}
    ∅.

(** A function literal recorded with the type [func()]. *)
Definition noResultInfo : analysis.Info :=
  typesOnly {[ 6%nat := var ptrName; 13%nat := var (types.Signature [] [] false) ]}.

(** [append(nodes, n)] with [nodes []ir.Node]: the identifier of the
    builtin is recorded with the signature of this call and the mode of
    a builtin. *)
Definition nodes : ast.Node := ident 16 67%Z "nodes".
Definition sigAppend : types.Type_ :=
  types.Signature [param "" (types.Slice tNode); param "" (types.Slice tNode)]
    [param "" (types.Slice tNode)] true.
Definition appendCall : ast.Node := ast.CallExpr 1 (ident 10 60%Z "append") [nodes; n] 0%Z.
Definition appendInfo : analysis.Info :=
  typesOnly {[ 10%nat := types.mkTV types.builtin sigAppend;
               16%nat := var (types.Slice tNode); 6%nat := var ptrName ]}.

(** [ir.Defn = n] where [Defn] is a variable of package ir, of type
    [ir.Node], and not a field. *)
Definition irDefn : ast.Node := ast.SelectorExpr 9 (ident 17 40%Z "ir") DefnSel.
Definition DefnVar : types.Object :=
  types.mkObject (types.Var false) (Some irPkg) "Defn" tNode.
Definition assignIrDefn : ast.Node := ast.AssignStmt 1 [irDefn] [n].

(** [type Handler func(ir.Node)] and a variable [g Handler]. *)
Definition tHandler : types.Type_ := named gcPkg "Handler".

End sample.

(** * Properties *)

(** ** The type classifier *)

Lemma isNamedObject_true (obj : types.Object) (pkgPath name : string) :
  gclint.isNamedObject obj pkgPath name = true <->
  exists pkg, types.Pkg obj = Some pkg /\ types.Path pkg = pkgPath /\ types.Name obj = name.
Proof.
  unfold gclint.isNamedObject. destruct (types.Pkg obj) as [pkg|].
  - rewrite andb_true_iff, !String.eqb_eq. split.
    + intros [Hp Hn]. exists pkg. auto.
    + intros (pkg' & Heq & Hp & Hn). injection Heq as <-. auto.
  - split; [discriminate | intros (pkg & Heq & _); discriminate].
Qed.

Lemma isNamedType_true (typ : types.Type_) (pkgPath name : string) :
  gclint.isNamedType typ pkgPath name = true <-> spec.NamedIn pkgPath name typ.
Proof.
  unfold spec.NamedIn. destruct typ as [| |obj| | | | | | |]; simpl;
    try (split; [discriminate | intros (k & p & t & Heq & _); discriminate]).
  rewrite isNamedObject_true. destruct obj as [kind pkg nm t]; simpl. split.
  - intros (p & -> & Hp & ->). exists kind, p, t. auto.
  - intros (k & p & t' & Heq & Hp). injection Heq as -> -> -> ->. exists p. auto.
Qed.

Lemma isPtrToNamedType_true (typ : types.Type_) (pkgPath name : string) :
  gclint.isPtrToNamedType typ pkgPath name = true <-> spec.PointerToNamedIn pkgPath name typ.
Proof.
  unfold spec.PointerToNamedIn. destruct typ as [| | |elem| | | | | |]; simpl;
    try (split; [discriminate | intros (e & Heq & _); discriminate]).
  rewrite isNamedType_true. split.
  - intros H. exists elem. auto.
  - intros (e & Heq & H). injection Heq as ->. exact H.
Qed.

(** C7.  The classifiers are functions into [bool]: they have a result on
    every type descriptor, the nil interface, an unresolved (invalid)
    type and unrelated types included, and no run-time check of theirs
    can fail.  Their result is [true] exactly on the exact nominal match,
    so it is [false] on every other input.  The interface check is
    [isNamedType] at "Node", the pointer checks are [isPtrToNamedType]
    at "Name" and "Func", all three at the path of package ir. *)
Theorem classifiers_false_unless_exact_match (typ : types.Type_) (pkgPath name : string) :
  (gclint.isNamedType typ pkgPath name = true <-> spec.NamedIn pkgPath name typ) /\
  (gclint.isPtrToNamedType typ pkgPath name = true <-> spec.PointerToNamedIn pkgPath name typ) /\
  (~ spec.NamedIn pkgPath name typ -> gclint.isNamedType typ pkgPath name = false) /\
  (~ spec.PointerToNamedIn pkgPath name typ -> gclint.isPtrToNamedType typ pkgPath name = false).
Proof.
  split; [apply isNamedType_true|].
  split; [apply isPtrToNamedType_true|].
  split; intros H; apply not_true_is_false.
  - rewrite isNamedType_true. exact H.
  - rewrite isPtrToNamedType_true. exact H.
Qed.

(** The classifiers on the nil interface, on an unresolved type, and on
    the type Node of another package. *)
Lemma classifiers_false_unless_exact_match_witness :
  gclint.isNodeType types.TNil = false /\
  gclint.isPtrToNameType (types.Basic types.Invalid) = false /\
  gclint.isNodeType (sample.named sample.gcPkg "Node") = false.
Proof.
  split; [|split].
  - apply (proj1 (proj2 (proj2 (classifiers_false_unless_exact_match
             types.TNil gclint.irPkgPath "Node")))).
    intros (k & p & t & Heq & _). discriminate.
  - apply (proj2 (proj2 (proj2 (classifiers_false_unless_exact_match
             (types.Basic types.Invalid) gclint.irPkgPath "Name")))).
    intros (e & Heq & _). discriminate.
  - apply (proj1 (proj2 (proj2 (classifiers_false_unless_exact_match
             (sample.named sample.gcPkg "Node") gclint.irPkgPath "Node")))).
    intros (k & p & t & Heq & Hp). unfold sample.named in Heq.
    injection Heq as _ <- _. discriminate.
Defined.

(** ** What a visit reports *)

Lemma emitted_app (msg : string) (before after : analysis.Pass) (l : list analysis.Diagnostic) :
  analysis.Diagnostics after = analysis.Diagnostics before ++ l ->
  spec.emitted msg before after
  = map analysis.Pos (List.filter (fun d => String.eqb (analysis.Message d) msg) l).
Proof.
  intros H. unfold spec.emitted, spec.newDiagnostics.
  rewrite H, drop_app_length. reflexivity.
Qed.

(** The assignment-flow block adds nothing, or one diagnostic with its
    own message at the position of the node. *)
Lemma assignCheck_diagnostics (flagAssign : bool) (n : ast.Node) (stack : list ast.Node)
    (pass : analysis.Pass) :
  let after := snd (gclint.assignCheck flagAssign n stack pass) in
  analysis.Diagnostics after = analysis.Diagnostics pass \/
  analysis.Diagnostics after
  = analysis.Diagnostics pass ++ [analysis.mkDiagnostic (ast.Pos n) gclint.msgAssign].
Proof.
  unfold gclint.assignCheck.
  destruct (flagAssign && ast.isExpr n); [|left; reflexivity].
  destruct (_ && _); [|left; reflexivity].
  destruct (gclint.assignedToNode _ _) as [[|]|v]; simpl; auto.
Qed.

Lemma visit_push (flagAssign : bool) (n : ast.Node) (stack : list ast.Node)
    (pass : analysis.Pass) :
  snd (gclint.visit flagAssign n true stack pass)
  = snd (gclint.assignCheck flagAssign n stack (gclint.typeSwitch n pass)).
Proof.
  unfold gclint.visit. simpl.
  destruct (gclint.assignCheck _ _ _ _) as [[u|v] p]; reflexivity.
Qed.

(** A message of the type switch is reported by the visit exactly as the
    type switch reports it: the assignment-flow block, whether it
    reports, stays silent or panics, changes nothing about it. *)
Lemma visit_emitted_switch (msg : string) (flagAssign : bool) (n : ast.Node)
    (stack : list ast.Node) (pass : analysis.Pass) (l : list analysis.Diagnostic) :
  String.eqb gclint.msgAssign msg = false ->
  analysis.Diagnostics (gclint.typeSwitch n pass) = analysis.Diagnostics pass ++ l ->
  spec.emitted msg pass (snd (gclint.visit flagAssign n true stack pass))
  = map analysis.Pos (List.filter (fun d => String.eqb (analysis.Message d) msg) l).
Proof.
  intros Hmsg Hl. rewrite visit_push.
  destruct (assignCheck_diagnostics flagAssign n stack (gclint.typeSwitch n pass)) as [H|H];
    simpl in H.
  - apply emitted_app. rewrite H. exact Hl.
  - rewrite (emitted_app msg _ _ (l ++ [analysis.mkDiagnostic (ast.Pos n) gclint.msgAssign])).
    + rewrite List.filter_app. cbn [List.filter analysis.Message].
      rewrite Hmsg, app_nil_r. reflexivity.
    + rewrite H, Hl, app_assoc. reflexivity.
Qed.

(** ** The map-key detector *)

(** C3.  On a map type whose key type is the interface type Node, the
    type switch appends one diagnostic, at the position of the map type
    and with the map-key message; the whole visit reports the map-key
    message exactly once, at that position; this for every value
    expression of the map type and every type recorded for it, every
    flag and every stack. *)
Theorem map_key_detector_reports_once (flagAssign : bool) (a : ast.addr) (Map : token.Pos)
    (Key Value : ast.Node) (stack : list ast.Node) (pass : analysis.Pass) :
  gclint.isNodeType (types.Type' (analysis.TypesAt (analysis.TypesInfo pass) Key)) = true ->
  let n := ast.MapType a Map Key Value in
  ast.Pos n = Map /\
  analysis.Diagnostics (gclint.typeSwitch n pass)
  = analysis.Diagnostics pass ++ [analysis.mkDiagnostic (ast.Pos n) gclint.msgMapKey] /\
  spec.emitted gclint.msgMapKey pass (snd (gclint.visit flagAssign n true stack pass))
  = [ast.Pos n].
Proof.
  intros Hkey n.
  assert (Hsw : analysis.Diagnostics (gclint.typeSwitch n pass)
                = analysis.Diagnostics pass
                  ++ [analysis.mkDiagnostic (ast.Pos n) gclint.msgMapKey]).
  { unfold n. simpl. rewrite Hkey. reflexivity. }
  split; [reflexivity|]. split; [exact Hsw|].
  rewrite (visit_emitted_switch gclint.msgMapKey flagAssign n stack pass _ eq_refl Hsw).
  reflexivity.
Qed.

(** [map[ir.Node]int] is reported once, at the position of [map]. *)
Lemma map_key_detector_reports_once_witness :
  spec.emitted gclint.msgMapKey (sample.passOf [] sample.mapInfo)
    (snd (gclint.visit true (ast.MapType 1 10%Z sample.mapKey sample.mapValue) true
            [ast.MapType 1 10%Z sample.mapKey sample.mapValue]
            (sample.passOf [] sample.mapInfo)))
  = [10%Z].
Proof.
  apply (map_key_detector_reports_once true 1 10%Z sample.mapKey sample.mapValue
           [ast.MapType 1 10%Z sample.mapKey sample.mapValue]
           (sample.passOf [] sample.mapInfo)).
  vm_compute. reflexivity.
Defined.

(** ** The equality detector *)

(** What the type switch appends on an equality or inequality. *)
Lemma typeSwitch_comparison (a : ast.addr) (X Y : ast.Node) (Op : token.Token)
    (pass : analysis.Pass) :
  Op = token.EQL \/ Op = token.NEQ ->
  let n := ast.BinaryExpr a X Op Y in
  let xtv := analysis.TypesAt (analysis.TypesInfo pass) X in
  let ytv := analysis.TypesAt (analysis.TypesInfo pass) Y in
  analysis.Diagnostics (gclint.typeSwitch n pass)
  = analysis.Diagnostics pass ++
    (if types.IsNil xtv || types.IsNil ytv then []
     else if gclint.isPtrToFuncType (types.Type' xtv) || gclint.isPtrToFuncType (types.Type' ytv)
          then []
          else if gclint.isNodeType (types.Type' xtv)
               then [analysis.mkDiagnostic (ast.Pos n) gclint.msgCompare]
               else []).
Proof.
  intros HOp n xtv ytv. unfold n, gclint.typeSwitch. fold xtv ytv.
  replace (token.eqb Op token.EQL || token.eqb Op token.NEQ) with true
    by (destruct HOp as [-> | ->]; reflexivity).
  destruct (types.IsNil xtv || types.IsNil ytv); [symmetry; apply app_nil_r|].
  destruct (gclint.isPtrToFuncType _ || gclint.isPtrToFuncType _);
    [symmetry; apply app_nil_r|].
  destruct (gclint.isNodeType _); [reflexivity | symmetry; apply app_nil_r].
Qed.

(** C2.  On [X == Y] or [X != Y] where neither operand is the untyped
    nil and neither has type pointer-to-Func, the visit reports the
    comparison message when the type of the left operand is the
    interface type Node, once and at the position of the expression, and
    does not report it otherwise: it is reported if and only if the left
    operand's type matches.  When either operand is the untyped nil, it
    is not reported. *)
Theorem equality_detector_iff_left_is_node (flagAssign : bool) (a : ast.addr) (X Y : ast.Node)
    (Op : token.Token) (stack : list ast.Node) (pass : analysis.Pass) :
  Op = token.EQL \/ Op = token.NEQ ->
  let n := ast.BinaryExpr a X Op Y in
  let xtv := analysis.TypesAt (analysis.TypesInfo pass) X in
  let ytv := analysis.TypesAt (analysis.TypesInfo pass) Y in
  let reported := spec.emitted gclint.msgCompare pass
                    (snd (gclint.visit flagAssign n true stack pass)) in
  (types.IsNil xtv = false -> types.IsNil ytv = false ->
   gclint.isPtrToFuncType (types.Type' xtv) = false ->
   gclint.isPtrToFuncType (types.Type' ytv) = false ->
   reported = (if gclint.isNodeType (types.Type' xtv) then [ast.Pos n] else []) /\
   (reported <> [] <-> gclint.isNodeType (types.Type' xtv) = true)) /\
  (types.IsNil xtv = true \/ types.IsNil ytv = true -> reported = []).
Proof.
  intros HOp n xtv ytv reported.
  pose proof (typeSwitch_comparison a X Y Op pass HOp) as Hsw. cbv zeta in Hsw.
  fold n xtv ytv in Hsw.
  pose proof (visit_emitted_switch gclint.msgCompare flagAssign n stack pass _ eq_refl Hsw)
    as Hrep. fold reported in Hrep.
  split.
  - intros Hx Hy Hfx Hfy. rewrite Hx, Hy, Hfx, Hfy in Hrep. simpl in Hrep.
    assert (Heq : reported = if gclint.isNodeType (types.Type' xtv) then [ast.Pos n] else []).
    { rewrite Hrep. destruct (gclint.isNodeType (types.Type' xtv)); reflexivity. }
    split; [exact Heq|]. rewrite Heq.
    destruct (gclint.isNodeType (types.Type' xtv)); split; congruence.
  - intros Hnil.
    replace (types.IsNil xtv || types.IsNil ytv) with true in Hrep.
    + exact Hrep.
    + destruct Hnil as [-> | ->]; [reflexivity | symmetry; apply orb_true_r].
Qed.

(** [x == y] with both operands of type [ir.Node] is reported; [x ==
    nil] is not. *)
Lemma equality_detector_iff_left_is_node_witness :
  spec.emitted gclint.msgCompare (sample.passOf [] sample.eqInfo)
    (snd (gclint.visit false (ast.BinaryExpr 1 sample.x token.EQL sample.y) true []
            (sample.passOf [] sample.eqInfo))) = [30%Z] /\
  spec.emitted gclint.msgCompare (sample.passOf [] sample.eqInfo)
    (snd (gclint.visit false (ast.BinaryExpr 1 sample.x token.EQL sample.nil_) true []
            (sample.passOf [] sample.eqInfo))) = [].
Proof.
  split.
  - apply (proj1 (equality_detector_iff_left_is_node false 1 sample.x sample.y token.EQL []
                    (sample.passOf [] sample.eqInfo) (or_introl eq_refl)));
      vm_compute; reflexivity.
  - apply (proj2 (equality_detector_iff_left_is_node false 1 sample.x sample.nil_ token.EQL []
                    (sample.passOf [] sample.eqInfo) (or_introl eq_refl))).
    right. vm_compute. reflexivity.
Defined.

(** C6.  On [X == Y] or [X != Y] where the type of either operand is
    pointer-to-Func, the visit does not report the comparison message,
    whatever the type of the left operand, the interface type Node
    included. *)
Theorem equality_detector_skips_func (flagAssign : bool) (a : ast.addr) (X Y : ast.Node)
    (Op : token.Token) (stack : list ast.Node) (pass : analysis.Pass) :
  Op = token.EQL \/ Op = token.NEQ ->
  let n := ast.BinaryExpr a X Op Y in
  let xtv := analysis.TypesAt (analysis.TypesInfo pass) X in
  let ytv := analysis.TypesAt (analysis.TypesInfo pass) Y in
  gclint.isPtrToFuncType (types.Type' xtv) = true \/
  gclint.isPtrToFuncType (types.Type' ytv) = true ->
  analysis.Diagnostics (gclint.typeSwitch n pass) = analysis.Diagnostics pass /\
  spec.emitted gclint.msgCompare pass (snd (gclint.visit flagAssign n true stack pass)) = [].
Proof.
  intros HOp n xtv ytv Hfunc.
  pose proof (typeSwitch_comparison a X Y Op pass HOp) as Hsw. cbv zeta in Hsw.
  fold n xtv ytv in Hsw.
  replace (gclint.isPtrToFuncType (types.Type' xtv) || gclint.isPtrToFuncType (types.Type' ytv))
    with true in Hsw
    by (destruct Hfunc as [-> | ->]; [reflexivity | symmetry; apply orb_true_r]).
  assert (Hnone : analysis.Diagnostics (gclint.typeSwitch n pass)
                  = analysis.Diagnostics pass ++ []).
  { rewrite Hsw. destruct (types.IsNil xtv || types.IsNil ytv); reflexivity. }
  split.
  - rewrite Hnone. apply app_nil_r.
  - rewrite (visit_emitted_switch gclint.msgCompare flagAssign n stack pass _ eq_refl Hnone).
    reflexivity.
Qed.

(** [x == f] with [x ir.Node] and [f *ir.Func] is not reported, though
    the left operand has the interface type. *)
Lemma equality_detector_skips_func_witness :
  gclint.isNodeType (types.Type' (analysis.TypesAt sample.eqInfo sample.x)) = true /\
  spec.emitted gclint.msgCompare (sample.passOf [] sample.eqInfo)
    (snd (gclint.visit false (ast.BinaryExpr 1 sample.x token.NEQ sample.f) true []
            (sample.passOf [] sample.eqInfo))) = [].
Proof.
  split; [vm_compute; reflexivity|].
  apply (equality_detector_skips_func false 1 sample.x sample.f token.NEQ []
           (sample.passOf [] sample.eqInfo) (or_intror eq_refl)).
  right. vm_compute. reflexivity.
Defined.

(** ** The assignment-flow detector *)

(** The type switch reads the type information and appends the
    diagnostics of its own two messages. *)
Lemma typeSwitch_reports (n : ast.Node) (pass : analysis.Pass) :
  gclint.typeSwitch n pass
  = analysis.mkPass (analysis.Files pass) (analysis.TypesInfo pass)
      (analysis.Diagnostics pass ++ spec.switchReports (analysis.TypesInfo pass) n).
Proof.
  destruct pass as [files info ds].
  destruct n; simpl; rewrite ?app_nil_r; try reflexivity.
  - destruct (token.eqb Op token.EQL || token.eqb Op token.NEQ); simpl;
      [|rewrite app_nil_r; reflexivity].
    destruct (types.IsNil _ || types.IsNil _); simpl; [rewrite app_nil_r; reflexivity|].
    destruct (gclint.isPtrToFuncType _ || gclint.isPtrToFuncType _); simpl;
      [rewrite app_nil_r; reflexivity|].
    destruct (gclint.isNodeType _); [reflexivity | rewrite app_nil_r; reflexivity].
  - destruct (gclint.isNodeType _); [reflexivity | rewrite app_nil_r; reflexivity].
Qed.

Lemma switchReports_not_assign (info : analysis.Info) (n : ast.Node) :
  List.filter (fun d => String.eqb (analysis.Message d) gclint.msgAssign)
    (spec.switchReports info n) = [].
Proof.
  destruct n; simpl; try reflexivity.
  - destruct (_ && _); reflexivity.
  - destruct (gclint.isNodeType _); reflexivity.
Qed.

(** The visit of a node at a push: whether it returns, and where it
    reports the assignment message, in terms of the resolver's answer. *)
Lemma visit_assign_result (flagAssign : bool) (n : ast.Node) (stack : list ast.Node)
    (pass : analysis.Pass) :
  let info := analysis.TypesInfo pass in
  let tv := analysis.TypesAt info n in
  let active := flagAssign && ast.isExpr n
                && (types.IsValue tv && gclint.isPtrToNameType (types.Type' tv)) in
  let r := gclint.assignedToNode stack info in
  fst (gclint.visit flagAssign n true stack pass)
  = (if active then match r with Ok _ => Ok true | Panic v => Panic v end else Ok true) /\
  spec.emitted gclint.msgAssign pass (snd (gclint.visit flagAssign n true stack pass))
  = (if active then match r with Ok true => [ast.Pos n] | _ => [] end else []).
Proof.
  intros info tv active r.
  assert (Hnone : forall after,
             analysis.Diagnostics after
             = analysis.Diagnostics pass ++ spec.switchReports info n ->
             spec.emitted gclint.msgAssign pass after = []).
  { intros after H. rewrite (emitted_app _ _ _ _ H), switchReports_not_assign. reflexivity. }
  unfold gclint.visit, gclint.assignCheck. rewrite typeSwitch_reports.
  cbn [negb analysis.TypesInfo]. fold info tv. unfold active.
  destruct (flagAssign && ast.isExpr n); cbn [andb fst snd]; [|split; auto].
  destruct (types.IsValue tv && gclint.isPtrToNameType (types.Type' tv));
    cbn [andb fst snd]; [|split; auto].
  fold r. destruct r as [[|]|v]; cbn [fst snd]; split; auto.
  rewrite (emitted_app gclint.msgAssign pass _
             (spec.switchReports info n
              ++ [analysis.mkDiagnostic (ast.Pos n) gclint.msgAssign])).
  - rewrite List.filter_app, switchReports_not_assign. reflexivity.
  - simpl. rewrite app_assoc. reflexivity.
Qed.

(** ** The ancestor context resolver *)

Lemma index_nat {A} (s : list A) (i : nat) :
  index s (Z.of_nat i) =
  match s !! i with Some a => Ok a | None => Panic IndexOutOfRange end.
Proof.
  unfold index. destruct (Z.ltb_spec (Z.of_nat i) 0); [lia|].
  rewrite Nat2Z.id. reflexivity.
Qed.

Lemma index_top {A} (pre : list A) (parent n : A) :
  index (pre ++ [parent; n]) (len (pre ++ [parent; n]) - 1) = Ok n.
Proof.
  unfold len. rewrite length_app. simpl length.
  replace (Z.of_nat (length pre + 2) - 1)%Z with (Z.of_nat (length pre + 1)) by lia.
  rewrite index_nat, lookup_app_r by lia.
  replace (length pre + 1 - length pre)%nat with 1%nat by lia. reflexivity.
Qed.

Lemma index_parent {A} (pre : list A) (parent n : A) :
  index (pre ++ [parent; n]) (len (pre ++ [parent; n]) - 2) = Ok parent.
Proof.
  unfold len. rewrite length_app. simpl length.
  replace (Z.of_nat (length pre + 2) - 2)%Z with (Z.of_nat (length pre)) by lia.
  rewrite index_nat, lookup_app_r by lia.
  rewrite Nat.sub_diag. reflexivity.
Qed.

Lemma At_lookup (t : list types.Object) (i : nat) (o : types.Object) :
  t !! i = Some o -> types.At t (Z.of_nat i) = Ok o.
Proof.
  intros H. destruct t as [|x t]; [rewrite lookup_nil in H; discriminate|].
  unfold types.At. rewrite index_nat, H. reflexivity.
Qed.

Lemma At_nil (i : Z) : types.At [] i = Panic NilDereference.
Proof. reflexivity. Qed.

Lemma At_beyond (t : list types.Object) (i : nat) :
  t <> [] -> t !! i = None -> types.At t (Z.of_nat i) = Panic IndexOutOfRange.
Proof.
  intros Hne H. destruct t as [|x t]; [contradiction|].
  unfold types.At. rewrite index_nat, H. reflexivity.
Qed.

Lemma same_true (x n : ast.Node) : ast.same x n = true <-> ast.addrOf x = ast.addrOf n.
Proof. unfold ast.same. apply Nat.eqb_eq. Qed.

Lemma rangeFind_NotAmong (n : ast.Node) (xs : list ast.Node) (i : Z) :
  spec.NotAmong n xs -> gclint.rangeFind n xs i = None.
Proof.
  revert i. induction xs as [|x xs IH]; intros i Hnot; simpl; [reflexivity|].
  destruct (ast.same x n) eqn:Hsame.
  - apply same_true in Hsame. exfalso. apply (Hnot x); [left; reflexivity | exact Hsame].
  - apply IH. intros x' Hin. apply Hnot. right. exact Hin.
Qed.

Lemma rangeFind_FoundAt (n : ast.Node) (xs : list ast.Node) (k : nat) (i : Z) :
  spec.FoundAt n xs k -> gclint.rangeFind n xs i = Some (i + Z.of_nat k)%Z.
Proof.
  revert k i. induction xs as [|x xs IH]; intros k i [(x' & Hx' & Haddr) Hfirst].
  - rewrite lookup_nil in Hx'. discriminate.
  - simpl. destruct k as [|k].
    + simpl in Hx'. injection Hx' as ->.
      apply same_true in Haddr. rewrite Haddr. f_equal. lia.
    + destruct (ast.same x n) eqn:Hsame.
      * apply same_true in Hsame. exfalso.
        apply (Hfirst 0%nat x); [lia | reflexivity | exact Hsame].
      * rewrite (IH k (i + 1)%Z).
        -- f_equal. lia.
        -- split; [exists x'; split; [exact Hx' | exact Haddr]|].
           intros j y Hj Hy. apply (Hfirst (S j) y); [lia | exact Hy].
Qed.

(** The resolver on a stack that ends in [parent; n]: the two leading
    index expressions succeed. *)
Ltac resolver_start :=
  unfold gclint.assignedToNode; rewrite index_top, index_parent; cbn [bindRes].

(** The resolver on the sample programs: [return n] inside a function
    literal with result type [ir.Node]; the same [return] with no
    function around it; the spread call [g(m, n...)], where the slice
    type of the last parameter is what counts; a call of a callee that
    is a value but has no signature type. *)
Example resolver_samples :
  gclint.assignedToNode
    [sample.funcLit sample.returnN; ast.OtherNode 15 30%Z [sample.returnN];
     sample.returnN; sample.n] sample.returnInfo = Ok true /\
  gclint.assignedToNode [sample.returnN; sample.n] sample.returnInfo
  = Panic (PanicString "no enclosing function declaration or literal") /\
  gclint.assignedToNode [sample.callG 66%Z; sample.n]
    (sample.callInfo (sample.var sample.sigVariadic)) = Ok false /\
  gclint.assignedToNode [sample.callG 0%Z; sample.n]
    (sample.callInfo (sample.var sample.tInt)) = Panic InterfaceConversion /\
  gclint.assignedToNode [sample.n] sample.nameInfo = Panic IndexOutOfRange.
Proof. vm_compute. repeat split; reflexivity. Qed.

(** C1, as stated, fails: under a parent that is neither an assignment,
    a call nor a return (here the expression statement [n], with
    [n *ir.Name]) the resolver returns false and the visit goes on
    without a report; and so it does under an assignment when the
    expression is not one of its right-hand sides (here [n = x],
    visiting [n]). *)
Lemma resolver_other_parent_counterexample :
  spec.otherParent sample.exprStmt = true /\
  ast.isExpr sample.n = true /\
  types.IsValue (analysis.TypesAt sample.nameInfo sample.n) = true /\
  gclint.isPtrToNameType (types.Type' (analysis.TypesAt sample.nameInfo sample.n)) = true /\
  gclint.assignedToNode [sample.exprStmt; sample.n] sample.nameInfo = Ok false /\
  gclint.visit true sample.n true [sample.exprStmt; sample.n] (sample.passOf [] sample.nameInfo)
  = (Ok true, sample.passOf [] sample.nameInfo) /\
  gclint.assignedToNode [ast.AssignStmt 1 [sample.n] [sample.x]; sample.n] sample.nameInfo
  = Ok false /\
  ~ (exists v, gclint.assignedToNode [sample.exprStmt; sample.n] sample.nameInfo = Panic v).
Proof.
  repeat split; try (vm_compute; reflexivity).
  intros [v Hv]. vm_compute in Hv. discriminate.
Qed.

(** C1, amended.  At the visit of an expression of type pointer-to-Name
    with the assignment detector enabled, on a stack that ends in the
    parent and the expression:
    - when the parent is a call whose callee is a value, or a return
      statement, and the expression is none of the arguments, or none of
      the results, the resolver panics and so does the visit;
    - when the parent is neither an assignment, a call nor a return, or
      is an assignment of which the expression is no right-hand side,
      the resolver returns false, and the visit returns without
      reporting an assignment. *)
Theorem resolver_aborts_or_returns_false (pre : list ast.Node) (parent n : ast.Node)
    (pass : analysis.Pass) :
  let info := analysis.TypesInfo pass in
  let stack := pre ++ [parent; n] in
  let aborts := exists v, gclint.assignedToNode stack info = Panic v /\
                          fst (gclint.visit true n true stack pass) = Panic v in
  let returns_false := gclint.assignedToNode stack info = Ok false /\
                       fst (gclint.visit true n true stack pass) = Ok true /\
                       spec.emitted gclint.msgAssign pass
                         (snd (gclint.visit true n true stack pass)) = [] in
  ast.isExpr n = true ->
  types.IsValue (analysis.TypesAt info n) = true ->
  gclint.isPtrToNameType (types.Type' (analysis.TypesAt info n)) = true ->
  (forall a Fun Args Ellipsis,
      parent = ast.CallExpr a Fun Args Ellipsis ->
      types.IsValue (analysis.TypesAt info Fun) = true ->
      spec.NotAmong n Args -> aborts) /\
  (forall a Return Results,
      parent = ast.ReturnStmt a Return Results ->
      spec.NotAmong n Results -> aborts) /\
  (spec.otherParent parent = true -> returns_false) /\
  (forall a Lhs Rhs,
      parent = ast.AssignStmt a Lhs Rhs ->
      spec.NotAmong n Rhs -> returns_false).
Proof.
  intros info stack aborts returns_false Hexpr Hval Hname.
  destruct (visit_assign_result true n stack pass) as [Hfst Hemit].
  cbv zeta in Hfst, Hemit. fold info stack in Hfst, Hemit.
  rewrite Hexpr, Hval, Hname in Hfst, Hemit. cbn [andb] in Hfst, Hemit.
  assert (Habort : forall v, gclint.assignedToNode stack info = Panic v -> aborts).
  { intros v Hv. exists v. rewrite Hfst, Hv. auto. }
  assert (Hfalse : gclint.assignedToNode stack info = Ok false -> returns_false).
  { intros Hr. unfold returns_false. rewrite Hfst, Hemit, Hr. auto. }
  split; [|split; [|split]].
  - intros a Fun Args Ellipsis -> HFun Hnot.
    assert (Hr : exists v, gclint.assignedToNode stack info = Panic v).
    { unfold stack. resolver_start. rewrite HFun. cbn [negb].
      destruct (types.Type' (analysis.TypesAt info Fun)); cbn; eauto.
      rewrite (rangeFind_NotAmong _ _ _ Hnot). eauto. }
    destruct Hr as [v Hv]. apply (Habort v Hv).
  - intros a Return Results -> Hnot.
    assert (Hr : exists v, gclint.assignedToNode stack info = Panic v).
    { unfold stack. resolver_start.
      destruct (gclint.funcScope _ info) as [t|v]; cbn; [|eauto].
      destruct t; cbn; eauto.
      rewrite (rangeFind_NotAmong _ _ _ Hnot). eauto. }
    destruct Hr as [v Hv]. apply (Habort v Hv).
  - intros Hother. apply Hfalse. unfold stack. resolver_start.
    destruct parent; try discriminate; reflexivity.
  - intros a Lhs Rhs -> Hnot. apply Hfalse. unfold stack. resolver_start.
    rewrite (rangeFind_NotAmong _ _ _ Hnot). reflexivity.
Qed.

(** A [return] without results inside a function literal, visited with
    [n] on top of the stack: the resolver panics.  An expression
    statement [n]: the resolver returns false. *)
Lemma resolver_aborts_or_returns_false_witness :
  (exists v,
      gclint.assignedToNode
        ([sample.funcLit sample.returnNone] ++ [sample.returnNone; sample.n])
        sample.returnInfo = Panic v /\
      fst (gclint.visit true sample.n true
             ([sample.funcLit sample.returnNone] ++ [sample.returnNone; sample.n])
             (sample.passOf [] sample.returnInfo)) = Panic v) /\
  gclint.assignedToNode ([] ++ [sample.exprStmt; sample.n]) sample.nameInfo = Ok false.
Proof.
  split.
  - apply (proj1 (proj2 (resolver_aborts_or_returns_false
                           [sample.funcLit sample.returnNone] sample.returnNone sample.n
                           (sample.passOf [] sample.returnInfo)
                           eq_refl ltac:(vm_compute; reflexivity)
                           ltac:(vm_compute; reflexivity)))
             12%nat 43%Z [] eq_refl).
    intros x [].
  - apply (proj1 (proj2 (proj2 (resolver_aborts_or_returns_false
                           [] sample.exprStmt sample.n
                           (sample.passOf [] sample.nameInfo)
                           eq_refl ltac:(vm_compute; reflexivity)
                           ltac:(vm_compute; reflexivity))))
             eq_refl).
Defined.

(** C9.  Under a call whose callee is not a value (a conversion, a
    builtin), the resolver returns false, whatever the node on top of
    the stack, the arguments of the call included; the visit of that
    node returns and reports no assignment, whatever the flag. *)
Theorem call_with_non_value_callee_returns_false (flagAssign : bool) (pre : list ast.Node)
    (a : ast.addr) (Fun : ast.Node) (Args : list ast.Node) (Ellipsis : token.Pos)
    (n : ast.Node) (pass : analysis.Pass) :
  let info := analysis.TypesInfo pass in
  let stack := pre ++ [ast.CallExpr a Fun Args Ellipsis; n] in
  types.IsValue (analysis.TypesAt info Fun) = false ->
  gclint.assignedToNode stack info = Ok false /\
  fst (gclint.visit flagAssign n true stack pass) = Ok true /\
  spec.emitted gclint.msgAssign pass (snd (gclint.visit flagAssign n true stack pass)) = [].
Proof.
  intros info stack HFun.
  assert (Hr : gclint.assignedToNode stack info = Ok false).
  { unfold stack. resolver_start. rewrite HFun. reflexivity. }
  destruct (visit_assign_result flagAssign n stack pass) as [Hfst Hemit].
  cbv zeta in Hfst, Hemit. fold info stack in Hfst, Hemit.
  rewrite Hr in Hfst, Hemit.
  split; [exact Hr|]. split.
  - rewrite Hfst. destruct (_ && _); reflexivity.
  - rewrite Hemit. destruct (_ && _); reflexivity.
Qed.

(** The conversion [g(m, n)] where [g] denotes a type. *)
Lemma call_with_non_value_callee_returns_false_witness :
  types.IsValue (analysis.TypesAt (sample.callInfo (sample.typexpr sample.tNode)) sample.g)
  = false /\
  gclint.assignedToNode ([] ++ [sample.callG 0%Z; sample.n])
    (sample.callInfo (sample.typexpr sample.tNode)) = Ok false.
Proof.
  split; [vm_compute; reflexivity|].
  apply (call_with_non_value_callee_returns_false true [] 1 sample.g [sample.m; sample.n] 0%Z
           sample.n (sample.passOf [] (sample.callInfo (sample.typexpr sample.tNode)))).
  vm_compute. reflexivity.
Defined.

(** C4, as stated, fails: in [append(nodes, n)] the callee has a
    variadic signature, [n] sits at the index of its last parameter,
    the call has no ellipsis, and the element type of the last
    parameter's slice type is [ir.Node]; the resolver does not check it:
    [append] is a builtin, not a value, and the resolver returns
    false. *)
Lemma call_builtin_callee_counterexample :
  let params := [sample.param "" (types.Slice sample.tNode);
                 sample.param "" (types.Slice sample.tNode)] in
  let results := [sample.param "" (types.Slice sample.tNode)] in
  let stack := [sample.appendCall; sample.n] in
  sample.appendCall = ast.CallExpr 1 (sample.ident 10 60%Z "append")
                        [sample.nodes; sample.n] 0%Z /\
  types.Type' (analysis.TypesAt sample.appendInfo (sample.ident 10 60%Z "append"))
  = types.Signature params results true /\
  token.IsValid 0%Z = false /\
  spec.FoundAt sample.n [sample.nodes; sample.n] 1 /\
  (len params - 1 <= Z.of_nat 1)%Z /\
  last params = Some (sample.param "" (types.Slice sample.tNode)) /\
  gclint.isNodeType sample.tNode = true /\
  types.IsValue (analysis.TypesAt sample.appendInfo (sample.ident 10 60%Z "append"))
  = false /\
  gclint.assignedToNode stack sample.appendInfo = Ok false /\
  gclint.assignedToNode stack sample.appendInfo <> Ok (gclint.isNodeType sample.tNode).
Proof.
  cbv zeta. repeat split; try (vm_compute; reflexivity).
  - exists sample.n. split; reflexivity.
  - intros j x Hj Hx. destruct j as [|j]; [|lia].
    injection Hx as <-. vm_compute. discriminate.
  - vm_compute. discriminate.
  - vm_compute. discriminate.
Qed.

(** C4, amended.  Under a call whose callee is a value of signature type, with
    the expression found at index [i] of the arguments: when the
    signature is variadic, the call has no ellipsis and [i] is the index
    of the last parameter or beyond, the resolver answers whether the
    element type of the last parameter's slice type is the interface
    type; otherwise it answers whether the type of the parameter at
    index [i] is. *)
Theorem call_argument_required_type (pre : list ast.Node) (a : ast.addr) (Fun : ast.Node)
    (Args : list ast.Node) (Ellipsis : token.Pos) (n : ast.Node) (info : analysis.Info)
    (params results : list types.Object) (variadic : bool) (i : nat) :
  let stack := pre ++ [ast.CallExpr a Fun Args Ellipsis; n] in
  let into_variadic := variadic = true /\ token.IsValid Ellipsis = false /\
                       (len params - 1 <= Z.of_nat i)%Z in
  types.IsValue (analysis.TypesAt info Fun) = true ->
  types.Type' (analysis.TypesAt info Fun) = types.Signature params results variadic ->
  spec.FoundAt n Args i ->
  (into_variadic ->
   forall lastParam elem,
     last params = Some lastParam ->
     types.TypeOf lastParam = types.Slice elem ->
     gclint.assignedToNode stack info = Ok (gclint.isNodeType elem)) /\
  (~ into_variadic ->
   forall param,
     params !! i = Some param ->
     gclint.assignedToNode stack info = Ok (gclint.isNodeType (types.TypeOf param))).
Proof.
  intros stack into_variadic HFun Hsig Hfound.
  assert (Hstart : gclint.assignedToNode stack info
                   = if variadic && negb (token.IsValid Ellipsis)
                        && (len params - 1 <=? Z.of_nat i)%Z
                     then let! lastParam := types.At params (len params - 1)%Z in
                          let! elem := gclint.asSliceElem (types.TypeOf lastParam) in
                          Ok (gclint.isNodeType elem)
                     else let! param := types.At params (Z.of_nat i) in
                          Ok (gclint.isNodeType (types.TypeOf param))).
  { unfold stack. resolver_start. rewrite HFun, Hsig. cbn [negb gclint.asSignature bindRes].
    rewrite (rangeFind_FoundAt _ _ _ _ Hfound). reflexivity. }
  split.
  - intros (Hv & He & Hi) lastParam elem Hlast Helem. rewrite Hstart, Hv, He.
    cbn [negb andb]. destruct (Z.leb_spec (len params - 1) (Z.of_nat i)); [|lia].
    rewrite last_lookup in Hlast. unfold len.
    assert (Hlen : (0 < length params)%nat).
    { destruct params; [discriminate | simpl; lia]. }
    replace (Z.of_nat (length params) - 1)%Z with (Z.of_nat (pred (length params))) by lia.
    rewrite (At_lookup _ _ _ Hlast). cbn [bindRes]. rewrite Helem. reflexivity.
  - intros Hnot param Hparam. rewrite Hstart.
    destruct (variadic && negb (token.IsValid Ellipsis)
              && (len params - 1 <=? Z.of_nat i)%Z) eqn:Hcond.
    + exfalso. apply Hnot. apply andb_true_iff in Hcond as [Hcond Hi].
      apply andb_true_iff in Hcond as [Hv He]. apply negb_true_iff in He.
      apply Z.leb_le in Hi. unfold into_variadic. auto.
    + rewrite (At_lookup _ _ _ Hparam). reflexivity.
Qed.

(** [g(m, n)] with [func g(a int, rest ...ir.Node)]: the second argument
    is checked against [ir.Node], the element type; with
    [func g(a int, b ir.Node)] against the type of [b]. *)
Lemma call_argument_required_type_witness :
  gclint.assignedToNode ([] ++ [sample.callG 0%Z; sample.n])
    (sample.callInfo (sample.var sample.sigVariadic)) = Ok (gclint.isNodeType sample.tNode) /\
  gclint.assignedToNode ([] ++ [sample.callG 0%Z; sample.n])
    (sample.callInfo (sample.var sample.sigFixed))
  = Ok (gclint.isNodeType (types.TypeOf (sample.param "b" sample.tNode))).
Proof.
  assert (Hfound : spec.FoundAt sample.n [sample.m; sample.n] 1).
  { split.
    - exists sample.n. split; reflexivity.
    - intros j x Hj Hx. destruct j as [|j]; [|lia].
      injection Hx as <-. vm_compute. discriminate. }
  split.
  - apply (proj1 (call_argument_required_type [] 1 sample.g [sample.m; sample.n] 0%Z sample.n
                    (sample.callInfo (sample.var sample.sigVariadic))
                    [sample.param "a" sample.tInt;
                     sample.param "rest" (types.Slice sample.tNode)] [] true 1
                    ltac:(vm_compute; reflexivity) ltac:(vm_compute; reflexivity) Hfound))
      with (lastParam := sample.param "rest" (types.Slice sample.tNode)).
    + split; [reflexivity|]. split; [reflexivity|]. vm_compute. discriminate.
    + reflexivity.
    + reflexivity.
  - apply (proj2 (call_argument_required_type [] 1 sample.g [sample.m; sample.n] 0%Z sample.n
                    (sample.callInfo (sample.var sample.sigFixed))
                    [sample.param "a" sample.tInt; sample.param "b" sample.tNode] [] false 1
                    ltac:(vm_compute; reflexivity) ltac:(vm_compute; reflexivity) Hfound)).
    + intros (Hv & _). discriminate.
    + reflexivity.
Defined.

(** ** Assignments and the Defn exemption *)

Lemma isNameDefnField_true (lval : ast.Node) (info : analysis.Info) :
  gclint.isNameDefnField lval info = true <-> spec.SelectsDefn info lval.
Proof.
  unfold spec.SelectsDefn. split.
  - destruct lval; try discriminate. simpl.
    destruct (analysis.Uses info !! ast.IdentAddr Sel) as [obj|] eqn:Huse; [|discriminate].
    rewrite isNamedObject_true. intros (pkg & Hpkg & Hpath & Hname).
    destruct obj as [kind p nm t]. simpl in Hpkg, Hname. subst p nm.
    exists a, lval, Sel, kind, pkg, t. auto.
  - intros (a & X & Sel & kind & pkg & t & -> & Huse & Hpath). simpl. rewrite Huse.
    apply isNamedObject_true. exists pkg. auto.
Qed.

(** The resolver under an assignment, with the expression found among
    the right-hand sides and a left-hand side at the same index. *)
Lemma assignedToNode_assignment (pre : list ast.Node) (a : ast.addr) (Lhs Rhs : list ast.Node)
    (n lval : ast.Node) (i : nat) (info : analysis.Info) :
  spec.FoundAt n Rhs i ->
  Lhs !! i = Some lval ->
  gclint.assignedToNode (pre ++ [ast.AssignStmt a Lhs Rhs; n]) info
  = Ok (if gclint.isNameDefnField lval info then false
        else gclint.isNodeType (types.Type' (analysis.TypesAt info lval))).
Proof.
  intros Hfound Hlval. resolver_start.
  rewrite (rangeFind_FoundAt _ _ _ _ Hfound), Z.add_0_l.
  rewrite index_nat, Hlval. cbn [bindRes].
  destruct (gclint.isNameDefnField lval info); reflexivity.
Qed.

(** C5.  The code departs from the claim at [ir.Defn = n], where [Defn]
    is a variable of package ir of type [ir.Node] and [n] has type
    [*ir.Name]: the left-hand side is a slot of the interface type and
    is not the field Defn of [ir.Name] (it is no field at all), so the
    claim has the assignment reported; the exemption test looks at the
    package and the name of the object only, the resolver returns false
    and the visit reports nothing. *)
Theorem assignment_to_variable_named_defn_not_flagged :
  let info := sample.assignInfo sample.DefnVar in
  let pass := sample.passOf [] info in
  let stack := [sample.assignIrDefn; sample.n] in
  sample.assignIrDefn = ast.AssignStmt 1 [sample.irDefn] [sample.n] /\
  analysis.Uses info !! ast.IdentAddr sample.DefnSel = Some sample.DefnVar /\
  types.Kind sample.DefnVar = types.Var false /\
  ast.isExpr sample.n = true /\
  types.IsValue (analysis.TypesAt info sample.n) = true /\
  gclint.isPtrToNameType (types.Type' (analysis.TypesAt info sample.n)) = true /\
  gclint.isNodeType (types.Type' (analysis.TypesAt info sample.irDefn)) = true /\
  gclint.isNameDefnField sample.irDefn info = true /\
  gclint.assignedToNode stack info = Ok false /\
  gclint.visit true sample.n true stack pass = (Ok true, pass) /\
  spec.emitted gclint.msgAssign pass (snd (gclint.visit true sample.n true stack pass)) = [].
Proof. cbv zeta. repeat split; vm_compute; reflexivity. Qed.

(** X19.  With the assignment detector enabled, at the visit of a value
    expression of type pointer-to-Name that is a right-hand side of an
    assignment: when the type of the left-hand side at the same index is
    the interface type, the visit reports the assignment, once and at
    the position of the expression, unless that left-hand side is a
    selector that resolves to an object named Defn of package ir, of
    whatever kind; when it is such a selector, the resolver returns
    false and the visit reports no assignment. *)
Theorem assignment_flagged_unless_defn (pre : list ast.Node) (a : ast.addr)
    (Lhs Rhs : list ast.Node) (n lval : ast.Node) (i : nat) (pass : analysis.Pass) :
  let info := analysis.TypesInfo pass in
  let stack := pre ++ [ast.AssignStmt a Lhs Rhs; n] in
  let after := snd (gclint.visit true n true stack pass) in
  ast.isExpr n = true ->
  types.IsValue (analysis.TypesAt info n) = true ->
  gclint.isPtrToNameType (types.Type' (analysis.TypesAt info n)) = true ->
  spec.FoundAt n Rhs i ->
  Lhs !! i = Some lval ->
  (gclint.isNodeType (types.Type' (analysis.TypesAt info lval)) = true ->
   ~ spec.SelectsDefn info lval ->
   gclint.assignedToNode stack info = Ok true /\
   spec.emitted gclint.msgAssign pass after = [ast.Pos n]) /\
  (spec.SelectsDefn info lval ->
   gclint.assignedToNode stack info = Ok false /\
   spec.emitted gclint.msgAssign pass after = []).
Proof.
  intros info stack after Hexpr Hval Hname Hfound Hlval.
  pose proof (assignedToNode_assignment pre a Lhs Rhs n lval i info Hfound Hlval) as Hr.
  fold stack in Hr.
  destruct (visit_assign_result true n stack pass) as [_ Hemit].
  cbv zeta in Hemit. fold info stack after in Hemit.
  rewrite Hexpr, Hval, Hname, Hr in Hemit. cbn [andb] in Hemit.
  split.
  - intros Hnode Hnot.
    assert (Hdefn : gclint.isNameDefnField lval info = false).
    { apply not_true_is_false. rewrite isNameDefnField_true. exact Hnot. }
    rewrite Hdefn, Hnode in Hr, Hemit. auto.
  - intros Hsel. apply isNameDefnField_true in Hsel. rewrite Hsel in Hr, Hemit. auto.
Qed.

(** [x = n] with [x ir.Node] is reported at [n]; [v.Defn = n] with the
    field Defn of [ir.Name] is not. *)
Lemma assignment_flagged_unless_defn_witness :
  spec.emitted gclint.msgAssign (sample.passOf [] (sample.assignInfo sample.DefnField))
    (snd (gclint.visit true sample.n true ([] ++ [sample.assignX; sample.n])
            (sample.passOf [] (sample.assignInfo sample.DefnField)))) = [50%Z] /\
  spec.emitted gclint.msgAssign (sample.passOf [] (sample.assignInfo sample.DefnField))
    (snd (gclint.visit true sample.n true ([] ++ [sample.assignDefn; sample.n])
            (sample.passOf [] (sample.assignInfo sample.DefnField)))) = [].
Proof.
  assert (Hfound : spec.FoundAt sample.n [sample.n] 0).
  { split; [exists sample.n; split; reflexivity | intros j x Hj; lia]. }
  split.
  - apply (proj1 (assignment_flagged_unless_defn [] 1 [sample.x] [sample.n] sample.n sample.x 0
                    (sample.passOf [] (sample.assignInfo sample.DefnField))
                    eq_refl ltac:(vm_compute; reflexivity) ltac:(vm_compute; reflexivity)
                    Hfound eq_refl)).
    + vm_compute. reflexivity.
    + intros (a & X & Sel & kind & pkg & t & Heq & _). discriminate.
  - apply (proj2 (assignment_flagged_unless_defn [] 1 [sample.vDefn] [sample.n] sample.n
                    sample.vDefn 0
                    (sample.passOf [] (sample.assignInfo sample.DefnField))
                    eq_refl ltac:(vm_compute; reflexivity) ltac:(vm_compute; reflexivity)
                    Hfound eq_refl)).
    exists 9%nat, sample.v, sample.DefnSel, (types.Var true), sample.irPkg, sample.tNode.
    split; [reflexivity|]. split; [vm_compute; reflexivity | reflexivity].
Defined.

(** C10.  A selector whose selected identifier resolves to an object
    named Defn of package ir passes the exemption test, whatever kind of
    object it is (a field or not) and whatever its type or the struct it
    belongs to; every assignment whose left-hand side at the index of
    the visited right-hand side is such a selector makes the resolver
    return false, and the visit reports no assignment. *)
Theorem defn_exemption_by_name_only (info : analysis.Info) (a : ast.addr) (X : ast.Node)
    (Sel : ast.Ident) (kind : types.ObjectKind) (pkg : types.Package) (typ : types.Type_) :
  analysis.Uses info !! ast.IdentAddr Sel = Some (types.mkObject kind (Some pkg) "Defn" typ) ->
  types.Path pkg = gclint.irPkgPath ->
  let lval := ast.SelectorExpr a X Sel in
  gclint.isNameDefnField lval info = true /\
  forall flagAssign pre a' Lhs Rhs n i pass,
    analysis.TypesInfo pass = info ->
    spec.FoundAt n Rhs i ->
    Lhs !! i = Some lval ->
    let stack := pre ++ [ast.AssignStmt a' Lhs Rhs; n] in
    gclint.assignedToNode stack info = Ok false /\
    fst (gclint.visit flagAssign n true stack pass) = Ok true /\
    spec.emitted gclint.msgAssign pass (snd (gclint.visit flagAssign n true stack pass)) = [].
Proof.
  intros Huse Hpath lval.
  assert (Hdefn : gclint.isNameDefnField lval info = true).
  { apply isNameDefnField_true. exists a, X, Sel, kind, pkg, typ. auto. }
  split; [exact Hdefn|].
  intros flagAssign pre a' Lhs Rhs n i pass Hinfo Hfound Hlval stack.
  pose proof (assignedToNode_assignment pre a' Lhs Rhs n lval i info Hfound Hlval) as Hr.
  fold stack in Hr. rewrite Hdefn in Hr.
  destruct (visit_assign_result flagAssign n stack pass) as [Hfst Hemit].
  cbv zeta in Hfst, Hemit. rewrite Hinfo, Hr in Hfst, Hemit.
  split; [exact Hr|]. split.
  - rewrite Hfst. destruct (_ && _); reflexivity.
  - rewrite Hemit. destruct (_ && _); reflexivity.
Qed.

(** [v.Defn = n] where [Defn] resolves to a function of package ir: the
    selector passes the test, and the assignment is exempted. *)
Lemma defn_exemption_by_name_only_witness :
  types.Kind sample.DefnFunc = types.Func /\
  gclint.isNameDefnField sample.vDefn (sample.assignInfo sample.DefnFunc) = true /\
  gclint.assignedToNode ([] ++ [sample.assignDefn; sample.n])
    (sample.assignInfo sample.DefnFunc) = Ok false.
Proof.
  split; [reflexivity|].
  pose proof (defn_exemption_by_name_only (sample.assignInfo sample.DefnFunc) 9 sample.v
                sample.DefnSel types.Func sample.irPkg (types.Signature [] [] false)
                ltac:(vm_compute; reflexivity) eq_refl) as [Htest Hassign].
  split; [exact Htest|].
  apply (Hassign true [] 1%nat [sample.vDefn] [sample.n] sample.n 0%nat
           (sample.passOf [] (sample.assignInfo sample.DefnFunc)) eq_refl).
  - split; [exists sample.n; split; reflexivity | intros j x Hj; lia].
  - reflexivity.
Defined.

(** ** The whole run *)

(** The events of a subtree: the push of the node, the events of its
    children in order, the pop of the node. *)
Lemma traverse_children (n : ast.Node) :
  inspector.traverse n
  = inspector.push n :: concat (map inspector.traverse (ast.children n)) ++ [inspector.pop n].
Proof.
  destruct n; cbn [inspector.traverse ast.children];
    try (rewrite map_app, concat_app); cbn [map concat inspector.traverse inspector.leaf app];
    rewrite ?app_nil_r, <- ?app_assoc; try reflexivity.
  destruct Recv, Body; cbn; rewrite ?app_nil_r, <- ?app_assoc; reflexivity.
Qed.

(** The sample file, with the assignment detector: four diagnostics in
    the order of the traversal; without it: the first two. *)
Example run_sample_file :
  let pass := sample.passOf [sample.file] sample.fileInfo in
  (fst (gclint.run true pass), analysis.Diagnostics (snd (gclint.run true pass)))
  = (Ok tt, [analysis.mkDiagnostic 14%Z gclint.msgMapKey;
             analysis.mkDiagnostic 30%Z gclint.msgCompare;
             analysis.mkDiagnostic 50%Z gclint.msgAssign;
             analysis.mkDiagnostic 70%Z gclint.msgAssign]) /\
  (fst (gclint.run false pass), analysis.Diagnostics (snd (gclint.run false pass)))
  = (Ok tt, [analysis.mkDiagnostic 14%Z gclint.msgMapKey;
             analysis.mkDiagnostic 30%Z gclint.msgCompare]).
Proof. vm_compute. split; reflexivity. Qed.

(** A visit reads the files and the type information of the pass and
    appends to its diagnostics; what it appends and whether it returns
    do not depend on the diagnostics reported before. *)
Lemma visit_frame (flagAssign : bool) (n : ast.Node) (push : bool) (stack : list ast.Node)
    (files : list ast.Node) (info : analysis.Info) :
  exists r out, forall ds,
    gclint.visit flagAssign n push stack (analysis.mkPass files info ds)
    = (r, analysis.mkPass files info (ds ++ out)).
Proof.
  destruct push.
  2:{ exists (Ok true), []. intros ds. rewrite app_nil_r. reflexivity. }
  unfold gclint.visit, gclint.assignCheck. cbn [negb].
  destruct (flagAssign && ast.isExpr n).
  2:{ exists (Ok true), (spec.switchReports info n). intros ds.
      rewrite typeSwitch_reports. reflexivity. }
  destruct (types.IsValue (analysis.TypesAt info n)
            && gclint.isPtrToNameType (types.Type' (analysis.TypesAt info n))) eqn:Hactive.
  2:{ exists (Ok true), (spec.switchReports info n). intros ds.
      rewrite typeSwitch_reports. cbn. rewrite Hactive. reflexivity. }
  destruct (gclint.assignedToNode stack info) as [[|]|v] eqn:Hr.
  - exists (Ok true),
      (spec.switchReports info n ++ [analysis.mkDiagnostic (ast.Pos n) gclint.msgAssign]).
    intros ds. rewrite typeSwitch_reports. cbn. rewrite Hactive, Hr. cbn.
    rewrite app_assoc. reflexivity.
  - exists (Ok true), (spec.switchReports info n). intros ds.
    rewrite typeSwitch_reports. cbn. rewrite Hactive, Hr. reflexivity.
  - exists (Panic v), (spec.switchReports info n). intros ds.
    rewrite typeSwitch_reports. cbn. rewrite Hactive, Hr. reflexivity.
Qed.

Lemma loop_frame (flagAssign : bool) (files : list ast.Node) (info : analysis.Info)
    (events : list inspector.event) :
  forall (skipping : nat) (stack : list ast.Node),
  exists r out, forall ds,
    inspector.loop (gclint.visit flagAssign) events skipping stack
      (analysis.mkPass files info ds)
    = (r, analysis.mkPass files info (ds ++ out)).
Proof.
  induction events as [|ev events IH]; intros skipping stack.
  - exists (Ok tt), []. intros ds. rewrite app_nil_r. reflexivity.
  - destruct ev as [n|n]; destruct skipping as [|k]; cbn [inspector.loop].
    + destruct (visit_frame flagAssign n true (stack ++ [n]) files info) as (r & out & Hv).
      destruct r as [[|]|v].
      * destruct (IH 0%nat (stack ++ [n])) as (r' & out' & Hl).
        exists r', (out ++ out'). intros ds. rewrite Hv, Hl, app_assoc. reflexivity.
      * destruct (IH 1%nat (removelast (stack ++ [n]))) as (r' & out' & Hl).
        exists r', (out ++ out'). intros ds. rewrite Hv, Hl, app_assoc. reflexivity.
      * exists (Panic v), out. intros ds. rewrite Hv. reflexivity.
    + apply IH.
    + destruct (visit_frame flagAssign n false stack files info) as (r & out & Hv).
      destruct r as [b|v].
      * destruct (IH 0%nat (removelast stack)) as (r' & out' & Hl).
        exists r', (out ++ out'). intros ds. rewrite Hv, Hl, app_assoc. reflexivity.
      * exists (Panic v), out. intros ds. rewrite Hv. reflexivity.
    + apply IH.
Qed.

Lemma run_frame (flagAssign : bool) (files : list ast.Node) (info : analysis.Info) :
  exists r out, forall ds,
    gclint.run flagAssign (analysis.mkPass files info ds)
    = (r, analysis.mkPass files info (ds ++ out)).
Proof.
  unfold gclint.run, inspector.WithStack. cbn [analysis.Files].
  apply loop_frame.
Qed.

(** C8.  The run has a result on every pass, and for fixed files, type
    information and flag, its result (return or abort) and the sequence
    of diagnostics it appends are the same whatever was reported before.
    It leaves the files and the type information as they were, so a
    second run, on the pass the first one left, appends the same
    diagnostics in the same order once more. *)
Theorem run_twice_same_diagnostics (flagAssign : bool) (files : list ast.Node)
    (info : analysis.Info) (ds1 ds2 : list analysis.Diagnostic) :
  let pass1 := analysis.mkPass files info ds1 in
  let pass2 := analysis.mkPass files info ds2 in
  let after1 := snd (gclint.run flagAssign pass1) in
  let after2 := snd (gclint.run flagAssign pass2) in
  let again := snd (gclint.run flagAssign after1) in
  fst (gclint.run flagAssign pass1) = fst (gclint.run flagAssign pass2) /\
  spec.newDiagnostics pass1 after1 = spec.newDiagnostics pass2 after2 /\
  analysis.Diagnostics after1 = ds1 ++ spec.newDiagnostics pass1 after1 /\
  analysis.Files after1 = files /\
  analysis.TypesInfo after1 = info /\
  fst (gclint.run flagAssign after1) = fst (gclint.run flagAssign pass1) /\
  spec.newDiagnostics after1 again = spec.newDiagnostics pass1 after1.
Proof.
  intros pass1 pass2 after1 after2 again.
  destruct (run_frame flagAssign files info) as (r & out & Hrun).
  unfold again, after1, after2, pass1, pass2. rewrite !Hrun. cbn [fst snd]. rewrite !Hrun.
  unfold spec.newDiagnostics. cbn [fst snd analysis.Diagnostics analysis.Files analysis.TypesInfo].
  rewrite !drop_app_length. repeat split.
Qed.

(** * Further properties of the analyzer *)

(** ** funcScope *)

Lemma funcScopeFrom_skip (above rest : list ast.Node) (info : analysis.Info) :
  Forall (fun m => spec.isFunc m = false) above ->
  gclint.funcScopeFrom (above ++ rest) info = gclint.funcScopeFrom rest info.
Proof.
  induction 1 as [|m above Hm _ IH]; [reflexivity|].
  simpl. destruct m; try discriminate; exact IH.
Qed.

Lemma funcScope_split (outer inner : list ast.Node) (fn : ast.Node) (info : analysis.Info) :
  Forall (fun m => spec.isFunc m = false) inner ->
  gclint.funcScope (outer ++ fn :: inner) info
  = gclint.funcScopeFrom (fn :: rev outer) info.
Proof.
  intros Hinner. unfold gclint.funcScope.
  rewrite rev_app_distr. simpl rev. rewrite <- app_assoc. simpl app.
  apply funcScopeFrom_skip. apply Forall_rev. exact Hinner.
Qed.

(** X1.  [funcScope] answers for the innermost function of the stack:
    with no function literal or declaration above [fn] in the stack, the
    result is the recorded type of [fn] when it is a literal, the type
    of the object its name defines when it is a declaration, and a nil
    dereference when the declaration's name has no entry in [Defs]; the
    nodes below [fn], functions or not, play no part. *)
Theorem funcScope_innermost (outer inner : list ast.Node) (fn : ast.Node)
    (info : analysis.Info) :
  Forall (fun m => spec.isFunc m = false) inner ->
  let stack := outer ++ fn :: inner in
  (forall a Type_ Body,
      fn = ast.FuncLit a Type_ Body ->
      gclint.funcScope stack info = Ok (types.Type' (analysis.TypesAt info fn))) /\
  (forall a Recv Name Type_ Body obj,
      fn = ast.FuncDecl a Recv Name Type_ Body ->
      analysis.Defs info !! ast.IdentAddr Name = Some obj ->
      gclint.funcScope stack info = Ok (types.TypeOf obj)) /\
  (forall a Recv Name Type_ Body,
      fn = ast.FuncDecl a Recv Name Type_ Body ->
      analysis.Defs info !! ast.IdentAddr Name = None ->
      gclint.funcScope stack info = Panic NilDereference).
Proof.
  intros Hinner stack. unfold stack. rewrite (funcScope_split _ _ _ _ Hinner).
  split; [|split].
  - intros a T B ->. reflexivity.
  - intros a R Name T B obj -> Hdef. simpl. rewrite Hdef. reflexivity.
  - intros a R Name T B -> Hdef. simpl. rewrite Hdef. reflexivity.
Qed.

Lemma nestedStack_inner :
  Forall (fun m => spec.isFunc m = false)
    [ast.OtherNode 15 30%Z [sample.returnN]; sample.returnN; sample.n].
Proof. repeat constructor. Qed.

(** At [return n] inside a literal inside [func outer() int], the
    literal's type is found, not the declaration's. *)
Lemma funcScope_innermost_witness :
  gclint.funcScope sample.nestedStack sample.nestedInfo
  = Ok (types.Signature [] [sample.param "" sample.tNode] false).
Proof.
  apply (proj1 (funcScope_innermost
                  [sample.outerDecl;
                   ast.OtherNode 43 9%Z [ast.OtherNode 44 10%Z [sample.innerLit]];
                   ast.OtherNode 44 10%Z [sample.innerLit]]
                  [ast.OtherNode 15 30%Z [sample.returnN]; sample.returnN; sample.n]
                  sample.innerLit sample.nestedInfo nestedStack_inner)
           13%nat (ast.OtherExpr 14 20%Z []) (ast.OtherNode 15 30%Z [sample.returnN]) eq_refl).
Defined.

(** X2.  On a stack without a function literal or declaration, the empty
    stack included, [funcScope] panics with its own message. *)
Theorem funcScope_no_function (stack : list ast.Node) (info : analysis.Info) :
  Forall (fun m => spec.isFunc m = false) stack ->
  gclint.funcScope stack info
  = Panic (PanicString "no enclosing function declaration or literal").
Proof.
  intros Hnone. unfold gclint.funcScope.
  rewrite <- (app_nil_r (rev stack)).
  rewrite (funcScopeFrom_skip _ [] info (Forall_rev Hnone)). reflexivity.
Qed.

Lemma funcScope_no_function_witness :
  gclint.funcScope [sample.returnN; sample.n] sample.returnInfo
  = Panic (PanicString "no enclosing function declaration or literal").
Proof.
  apply (funcScope_no_function [sample.returnN; sample.n] sample.returnInfo).
  repeat constructor.
Defined.

(** ** The resolver: return statements, bounds and assertions *)

(** X3.  Under a return statement, when [funcScope] finds a function of
    signature type and the expression is found at index [i] of the
    results of the statement, the resolver answers whether the type of
    the signature's result at index [i] is the interface type.  When the
    signature has results but none at that index, it panics with an
    index out of range; when the signature has no results at all, its
    result tuple is nil and the resolver panics with a nil
    dereference. *)
Theorem return_required_type (pre : list ast.Node) (a : ast.addr) (Return : token.Pos)
    (Results : list ast.Node) (n : ast.Node) (info : analysis.Info)
    (params results : list types.Object) (variadic : bool) (i : nat) :
  let stack := pre ++ [ast.ReturnStmt a Return Results; n] in
  gclint.funcScope stack info = Ok (types.Signature params results variadic) ->
  spec.FoundAt n Results i ->
  (forall res,
      results !! i = Some res ->
      gclint.assignedToNode stack info = Ok (gclint.isNodeType (types.TypeOf res))) /\
  (results <> [] -> results !! i = None ->
   gclint.assignedToNode stack info = Panic IndexOutOfRange) /\
  (results = [] ->
   gclint.assignedToNode stack info = Panic NilDereference).
Proof.
  intros stack Hscope Hfound.
  assert (Hstart : gclint.assignedToNode stack info
                   = let! res := types.At results (Z.of_nat i) in
                     Ok (gclint.isNodeType (types.TypeOf res))).
  { unfold stack in *. resolver_start. rewrite Hscope.
    cbn [bindRes gclint.asSignature].
    rewrite (rangeFind_FoundAt _ _ _ _ Hfound). reflexivity. }
  rewrite Hstart. split; [|split].
  - intros res Hres. rewrite (At_lookup _ _ _ Hres). reflexivity.
  - intros Hne Hnone. rewrite (At_beyond _ _ Hne Hnone). reflexivity.
  - intros ->. reflexivity.
Qed.

(** [return n] in a literal [func() ir.Node] nested in
    [func outer() int]: [n] is checked against [ir.Node].  [return n]
    in a literal recorded as [func()]: a nil dereference. *)
Lemma return_required_type_witness :
  gclint.assignedToNode sample.nestedStack sample.nestedInfo = Ok true /\
  gclint.assignedToNode
    ([sample.funcLit sample.returnN; ast.OtherNode 15 30%Z [sample.returnN]]
     ++ [sample.returnN; sample.n])
    sample.noResultInfo
  = Panic NilDereference.
Proof.
  assert (Hfound : spec.FoundAt sample.n [sample.n] 0).
  { split; [exists sample.n; split; reflexivity | intros j x Hj; lia]. }
  split.
  - apply (proj1 (return_required_type
                    [sample.outerDecl;
                     ast.OtherNode 43 9%Z [ast.OtherNode 44 10%Z [sample.innerLit]];
                     ast.OtherNode 44 10%Z [sample.innerLit]; sample.innerLit;
                     ast.OtherNode 15 30%Z [sample.returnN]]
                    12 43%Z [sample.n] sample.n sample.nestedInfo
                    [] [sample.param "" sample.tNode] false 0
                    ltac:(vm_compute; reflexivity) Hfound)
             (sample.param "" sample.tNode) eq_refl).
  - apply (proj2 (proj2 (return_required_type
                    [sample.funcLit sample.returnN; ast.OtherNode 15 30%Z [sample.returnN]]
                    12 43%Z [sample.n] sample.n
                    sample.noResultInfo
                    [] [] false 0
                    ltac:(vm_compute; reflexivity) Hfound))
             eq_refl).
Defined.

(** X4.  On a stack of fewer than two nodes the resolver panics with an
    index out of range: it needs the expression and its parent. *)
Theorem resolver_short_stack (stack : list ast.Node) (info : analysis.Info) :
  (length stack < 2)%nat ->
  gclint.assignedToNode stack info = Panic IndexOutOfRange.
Proof.
  intros Hlen. destruct stack as [|x [|y stack]]; [reflexivity | reflexivity |].
  simpl in Hlen. lia.
Qed.

Lemma resolver_short_stack_witness :
  gclint.assignedToNode [sample.n] sample.nameInfo = Panic IndexOutOfRange.
Proof. apply (resolver_short_stack [sample.n] sample.nameInfo). simpl. lia. Defined.

(** X5.  Under an assignment with the expression found at index [i] of
    the right-hand sides and no left-hand side at that index, the
    resolver panics with an index out of range. *)
Theorem assignment_without_matching_lhs (pre : list ast.Node) (a : ast.addr)
    (Lhs Rhs : list ast.Node) (n : ast.Node) (i : nat) (info : analysis.Info) :
  spec.FoundAt n Rhs i ->
  Lhs !! i = None ->
  gclint.assignedToNode (pre ++ [ast.AssignStmt a Lhs Rhs; n]) info = Panic IndexOutOfRange.
Proof.
  intros Hfound Hlhs. resolver_start.
  rewrite (rangeFind_FoundAt _ _ _ _ Hfound), Z.add_0_l, index_nat, Hlhs. reflexivity.
Qed.

(** An assignment with the right-hand sides [x, n] and the single
    left-hand side [z], visited at [n]. *)
Lemma assignment_without_matching_lhs_witness :
  gclint.assignedToNode
    ([] ++ [ast.AssignStmt 1 [sample.z] [sample.x; sample.n]; sample.n]) sample.nameInfo
  = Panic IndexOutOfRange.
Proof.
  apply (assignment_without_matching_lhs [] 1 [sample.z] [sample.x; sample.n] sample.n 1
           sample.nameInfo).
  - split; [exists sample.n; split; reflexivity|].
    intros j x Hj Hx. destruct j as [|j]; [|lia].
    injection Hx as <-. vm_compute. discriminate.
  - reflexivity.
Defined.

(** X6.  Under a call whose callee is a value of a type that is not a
    signature (the nil type, or a named function type), the resolver
    panics at the type assertion, whatever the arguments and the node on
    top of the stack. *)
Theorem call_callee_without_signature (pre : list ast.Node) (a : ast.addr) (Fun : ast.Node)
    (Args : list ast.Node) (Ellipsis : token.Pos) (n : ast.Node) (info : analysis.Info) :
  types.IsValue (analysis.TypesAt info Fun) = true ->
  (forall params results variadic,
      types.Type' (analysis.TypesAt info Fun) <> types.Signature params results variadic) ->
  gclint.assignedToNode (pre ++ [ast.CallExpr a Fun Args Ellipsis; n]) info
  = Panic InterfaceConversion.
Proof.
  intros HFun Hsig. resolver_start. rewrite HFun. cbn [negb].
  destruct (types.Type' (analysis.TypesAt info Fun)) eqn:Hty; try reflexivity.
  exfalso. exact (Hsig _ _ _ eq_refl).
Qed.

(** [g(m, n)] with [g] a variable of the named function type
    [Handler]. *)
Lemma call_callee_without_signature_witness :
  gclint.assignedToNode ([] ++ [sample.callG 0%Z; sample.n])
    (sample.callInfo (sample.var sample.tHandler)) = Panic InterfaceConversion.
Proof.
  apply (call_callee_without_signature [] 1 sample.g [sample.m; sample.n] 0%Z sample.n
           (sample.callInfo (sample.var sample.tHandler))).
  - vm_compute. reflexivity.
  - intros params results variadic H. vm_compute in H. discriminate.
Defined.

(** X7.  Under a call whose callee is a value of signature type, with
    the expression found at index [i] of the arguments, when the
    signature is not variadic or the call has an ellipsis: if the
    signature has parameters but none at index [i], the resolver panics
    with an index out of range; if it has no parameters at all, its
    parameter tuple is nil and the resolver panics with a nil
    dereference. *)
Theorem call_argument_beyond_parameters (pre : list ast.Node) (a : ast.addr) (Fun : ast.Node)
    (Args : list ast.Node) (Ellipsis : token.Pos) (n : ast.Node) (info : analysis.Info)
    (params results : list types.Object) (variadic : bool) (i : nat) :
  let stack := pre ++ [ast.CallExpr a Fun Args Ellipsis; n] in
  types.IsValue (analysis.TypesAt info Fun) = true ->
  types.Type' (analysis.TypesAt info Fun) = types.Signature params results variadic ->
  spec.FoundAt n Args i ->
  variadic = false \/ token.IsValid Ellipsis = true ->
  (params <> [] -> params !! i = None ->
   gclint.assignedToNode stack info = Panic IndexOutOfRange) /\
  (params = [] ->
   gclint.assignedToNode stack info = Panic NilDereference).
Proof.
  intros stack HFun Hsig Hfound Hfixed.
  assert (Hstart : gclint.assignedToNode stack info
                   = let! param := types.At params (Z.of_nat i) in
                     Ok (gclint.isNodeType (types.TypeOf param))).
  { unfold stack. resolver_start.
    rewrite HFun, Hsig. cbn [negb gclint.asSignature bindRes].
    rewrite (rangeFind_FoundAt _ _ _ _ Hfound), Z.add_0_l.
    replace (variadic && negb (token.IsValid Ellipsis)) with false
      by (destruct Hfixed as [-> | ->]; [reflexivity | symmetry; apply andb_false_r]).
    reflexivity. }
  rewrite Hstart. split.
  - intros Hne Hnone. rewrite (At_beyond _ _ Hne Hnone). reflexivity.
  - intros ->. reflexivity.
Qed.

(** [g(m, n)] with [func g(a int)], and with [func g()]. *)
Lemma call_argument_beyond_parameters_witness :
  gclint.assignedToNode ([] ++ [sample.callG 0%Z; sample.n])
    (sample.callInfo
       (sample.var (types.Signature [sample.param "a" sample.tInt] [] false)))
  = Panic IndexOutOfRange /\
  gclint.assignedToNode ([] ++ [sample.callG 0%Z; sample.n])
    (sample.callInfo (sample.var (types.Signature [] [] false)))
  = Panic NilDereference.
Proof.
  assert (Hfound : spec.FoundAt sample.n [sample.m; sample.n] 1).
  { split; [exists sample.n; split; reflexivity|].
    intros j x Hj Hx. destruct j as [|j]; [|lia].
    injection Hx as <-. vm_compute. discriminate. }
  split.
  - apply (proj1 (call_argument_beyond_parameters [] 1 sample.g [sample.m; sample.n] 0%Z
                    sample.n
                    (sample.callInfo
                       (sample.var (types.Signature [sample.param "a" sample.tInt] [] false)))
                    [sample.param "a" sample.tInt] [] false 1
                    ltac:(vm_compute; reflexivity) ltac:(vm_compute; reflexivity)
                    Hfound (or_introl eq_refl)));
      [discriminate | reflexivity].
  - apply (proj2 (call_argument_beyond_parameters [] 1 sample.g [sample.m; sample.n] 0%Z
                    sample.n
                    (sample.callInfo (sample.var (types.Signature [] [] false)))
                    [] [] false 1
                    ltac:(vm_compute; reflexivity) ltac:(vm_compute; reflexivity)
                    Hfound (or_introl eq_refl))).
    reflexivity.
Defined.

(** X8.  An argument passed with an ellipsis to a variadic callee is
    checked against the type of the parameter at its index; when that
    type is a slice type, as the type of a variadic parameter is, the
    resolver returns false, whatever the element type. *)
Theorem call_spread_argument_returns_false (pre : list ast.Node) (a : ast.addr)
    (Fun : ast.Node) (Args : list ast.Node) (Ellipsis : token.Pos) (n : ast.Node)
    (info : analysis.Info) (params results : list types.Object) (i : nat)
    (param : types.Object) (elem : types.Type_) :
  types.IsValue (analysis.TypesAt info Fun) = true ->
  types.Type' (analysis.TypesAt info Fun) = types.Signature params results true ->
  token.IsValid Ellipsis = true ->
  spec.FoundAt n Args i ->
  params !! i = Some param ->
  types.TypeOf param = types.Slice elem ->
  gclint.assignedToNode (pre ++ [ast.CallExpr a Fun Args Ellipsis; n]) info = Ok false.
Proof.
  intros HFun Hsig Hell Hfound Hparam Hslice. resolver_start.
  rewrite HFun, Hsig. cbn [negb gclint.asSignature bindRes].
  rewrite (rangeFind_FoundAt _ _ _ _ Hfound), Z.add_0_l, Hell.
  cbn [negb andb]. rewrite (At_lookup _ _ _ Hparam). cbn [bindRes].
  rewrite Hslice. reflexivity.
Qed.

(** [g(m, n...)] with [func g(a int, rest ...ir.Node)]. *)
Lemma call_spread_argument_returns_false_witness :
  gclint.assignedToNode ([] ++ [sample.callG 66%Z; sample.n])
    (sample.callInfo (sample.var sample.sigVariadic)) = Ok false.
Proof.
  apply (call_spread_argument_returns_false [] 1 sample.g [sample.m; sample.n] 66%Z sample.n
           (sample.callInfo (sample.var sample.sigVariadic))
           [sample.param "a" sample.tInt; sample.param "rest" (types.Slice sample.tNode)]
           [] 1 (sample.param "rest" (types.Slice sample.tNode)) sample.tNode).
  - vm_compute. reflexivity.
  - vm_compute. reflexivity.
  - reflexivity.
  - split; [exists sample.n; split; reflexivity|].
    intros j x Hj Hx. destruct j as [|j]; [|lia].
    injection Hx as <-. vm_compute. discriminate.
  - reflexivity.
  - reflexivity.
Defined.

(** ** The detectors: what they leave alone *)

(** The visit of a node at a push, on a pass given by its fields: the
    reports of the type switch, then nothing or one assignment
    diagnostic; the result is never a request to prune; and without the
    flag the visit returns and adds no assignment diagnostic. *)
Lemma visit_shape (flagAssign : bool) (n : ast.Node) (stack : list ast.Node)
    (files : list ast.Node) (info : analysis.Info) :
  exists r extra,
    (forall ds,
        gclint.visit flagAssign n true stack (analysis.mkPass files info ds)
        = (r, analysis.mkPass files info (ds ++ spec.switchReports info n ++ extra))) /\
    (extra = [] \/ extra = [analysis.mkDiagnostic (ast.Pos n) gclint.msgAssign]) /\
    (r = Ok true \/ exists v, r = Panic v) /\
    (flagAssign = false -> r = Ok true /\ extra = []).
Proof.
  unfold gclint.visit, gclint.assignCheck. cbn [negb].
  destruct (flagAssign && ast.isExpr n) eqn:Hflag.
  2:{ exists (Ok true), []. repeat split; auto.
      intros ds. rewrite typeSwitch_reports. cbn. rewrite app_nil_r. reflexivity. }
  apply andb_true_iff in Hflag as Hflag'. destruct Hflag' as [-> _].
  destruct (types.IsValue (analysis.TypesAt info n)
            && gclint.isPtrToNameType (types.Type' (analysis.TypesAt info n))) eqn:Hactive.
  2:{ exists (Ok true), []. repeat split; auto; try discriminate.
      intros ds. rewrite typeSwitch_reports. cbn.
      rewrite Hactive, app_nil_r. reflexivity. }
  destruct (gclint.assignedToNode stack info) as [[|]|v] eqn:Hr.
  - exists (Ok true), [analysis.mkDiagnostic (ast.Pos n) gclint.msgAssign].
    repeat split; auto; try discriminate.
    intros ds. rewrite typeSwitch_reports. cbn. rewrite Hactive, Hr. cbn.
    rewrite app_assoc. reflexivity.
  - exists (Ok true), []. repeat split; auto; try discriminate.
    intros ds. rewrite typeSwitch_reports. cbn.
    rewrite Hactive, Hr, app_nil_r. reflexivity.
  - exists (Panic v), []. repeat split; eauto; try discriminate.
    intros ds. rewrite typeSwitch_reports. cbn.
    rewrite Hactive, Hr, app_nil_r. reflexivity.
Qed.

(** X9.  A map type whose key type is not the interface type Node is
    left alone: the type switch does not change the pass, and the visit
    reports neither the map-key nor the comparison message, whatever the
    value type of the map, Node included. *)
Theorem map_key_detector_ignores_other_keys (flagAssign : bool) (a : ast.addr)
    (Map : token.Pos) (Key Value : ast.Node) (stack : list ast.Node) (pass : analysis.Pass) :
  gclint.isNodeType (types.Type' (analysis.TypesAt (analysis.TypesInfo pass) Key)) = false ->
  let n := ast.MapType a Map Key Value in
  gclint.typeSwitch n pass = pass /\
  spec.emitted gclint.msgMapKey pass (snd (gclint.visit flagAssign n true stack pass)) = [] /\
  spec.emitted gclint.msgCompare pass (snd (gclint.visit flagAssign n true stack pass)) = [].
Proof.
  intros Hkey n.
  assert (Hsw : gclint.typeSwitch n pass = pass).
  { unfold n. simpl. rewrite Hkey. reflexivity. }
  assert (Hnone : analysis.Diagnostics (gclint.typeSwitch n pass)
                  = analysis.Diagnostics pass ++ []).
  { rewrite Hsw, app_nil_r. reflexivity. }
  split; [exact Hsw|]. split.
  - rewrite (visit_emitted_switch gclint.msgMapKey flagAssign n stack pass _ eq_refl Hnone).
    reflexivity.
  - rewrite (visit_emitted_switch gclint.msgCompare flagAssign n stack pass _ eq_refl Hnone).
    reflexivity.
Qed.

(** [map[int]ir.Node]: the interface type as value type is not
    reported. *)
Lemma map_key_detector_ignores_other_keys_witness :
  spec.emitted gclint.msgMapKey (sample.passOf [] sample.mapInfo)
    (snd (gclint.visit true (ast.MapType 1 10%Z sample.mapValue sample.mapKey) true
            [ast.MapType 1 10%Z sample.mapValue sample.mapKey]
            (sample.passOf [] sample.mapInfo))) = [].
Proof.
  apply (map_key_detector_ignores_other_keys true 1 10%Z sample.mapValue sample.mapKey
           [ast.MapType 1 10%Z sample.mapValue sample.mapKey]
           (sample.passOf [] sample.mapInfo)).
  vm_compute. reflexivity.
Defined.

(** X10.  A binary expression with an operator other than [==] and [!=]
    is left alone: the type switch does not change the pass and the
    visit reports no comparison, whatever the types of the operands. *)
Theorem equality_detector_ignores_other_operators (flagAssign : bool) (a : ast.addr)
    (X Y : ast.Node) (Op : token.Token) (stack : list ast.Node) (pass : analysis.Pass) :
  Op <> token.EQL ->
  Op <> token.NEQ ->
  let n := ast.BinaryExpr a X Op Y in
  gclint.typeSwitch n pass = pass /\
  spec.emitted gclint.msgCompare pass (snd (gclint.visit flagAssign n true stack pass)) = [].
Proof.
  intros Heql Hneq n.
  assert (Hsw : gclint.typeSwitch n pass = pass).
  { unfold n. simpl. destruct Op; try reflexivity; congruence. }
  assert (Hnone : analysis.Diagnostics (gclint.typeSwitch n pass)
                  = analysis.Diagnostics pass ++ []).
  { rewrite Hsw, app_nil_r. reflexivity. }
  split; [exact Hsw|].
  rewrite (visit_emitted_switch gclint.msgCompare flagAssign n stack pass _ eq_refl Hnone).
  reflexivity.
Qed.

(** [x < y] with [x, y ir.Node]. *)
Lemma equality_detector_ignores_other_operators_witness :
  gclint.typeSwitch (ast.BinaryExpr 1 sample.x token.LSS sample.y)
    (sample.passOf [] sample.eqInfo) = sample.passOf [] sample.eqInfo.
Proof.
  apply (equality_detector_ignores_other_operators false 1 sample.x sample.y token.LSS []
           (sample.passOf [] sample.eqInfo)); discriminate.
Defined.

(** X11.  At the visit of a value expression of type pointer-to-Name
    that is a right-hand side of an assignment, when the type of the
    left-hand side at the same index is not the interface type, the
    resolver returns false and the visit reports no assignment. *)
Theorem assignment_to_other_type_not_flagged (pre : list ast.Node) (a : ast.addr)
    (Lhs Rhs : list ast.Node) (n lval : ast.Node) (i : nat) (pass : analysis.Pass) :
  let info := analysis.TypesInfo pass in
  let stack := pre ++ [ast.AssignStmt a Lhs Rhs; n] in
  spec.FoundAt n Rhs i ->
  Lhs !! i = Some lval ->
  gclint.isNodeType (types.Type' (analysis.TypesAt info lval)) = false ->
  gclint.assignedToNode stack info = Ok false /\
  fst (gclint.visit true n true stack pass) = Ok true /\
  spec.emitted gclint.msgAssign pass (snd (gclint.visit true n true stack pass)) = [].
Proof.
  intros info stack Hfound Hlval Hother.
  pose proof (assignedToNode_assignment pre a Lhs Rhs n lval i info Hfound Hlval) as Hr.
  fold stack in Hr. rewrite Hother in Hr.
  assert (Hfalse : gclint.assignedToNode stack info = Ok false).
  { rewrite Hr. destruct (gclint.isNameDefnField lval info); reflexivity. }
  destruct (visit_assign_result true n stack pass) as [Hfst Hemit].
  cbv zeta in Hfst, Hemit. fold info stack in Hfst, Hemit. rewrite Hfalse in Hfst, Hemit.
  split; [exact Hfalse|]. split.
  - rewrite Hfst. destruct (_ && _); reflexivity.
  - rewrite Hemit. destruct (_ && _); reflexivity.
Qed.

(** [v = n] with [v, n *ir.Name]. *)
Lemma assignment_to_other_type_not_flagged_witness :
  spec.emitted gclint.msgAssign (sample.passOf [] (sample.assignInfo sample.DefnField))
    (snd (gclint.visit true sample.n true
            ([] ++ [ast.AssignStmt 1 [sample.v] [sample.n]; sample.n])
            (sample.passOf [] (sample.assignInfo sample.DefnField)))) = [].
Proof.
  apply (assignment_to_other_type_not_flagged [] 1 [sample.v] [sample.n] sample.n sample.v 0
           (sample.passOf [] (sample.assignInfo sample.DefnField))).
  - split; [exists sample.n; split; reflexivity | intros j x Hj; lia].
  - reflexivity.
  - vm_compute. reflexivity.
Defined.

(** X12.  The resolver is consulted only with the flag set, at a node
    that is an expression, a value, and of type pointer-to-Name.  In
    every other case the visit returns and reports no assignment,
    whatever the stack, an empty one included. *)
Theorem visit_without_resolver (flagAssign : bool) (n : ast.Node) (stack : list ast.Node)
    (pass : analysis.Pass) :
  let tv := analysis.TypesAt (analysis.TypesInfo pass) n in
  flagAssign = false \/ ast.isExpr n = false \/ types.IsValue tv = false \/
  gclint.isPtrToNameType (types.Type' tv) = false ->
  fst (gclint.visit flagAssign n true stack pass) = Ok true /\
  spec.emitted gclint.msgAssign pass (snd (gclint.visit flagAssign n true stack pass)) = [].
Proof.
  intros tv Hoff.
  destruct (visit_assign_result flagAssign n stack pass) as [Hfst Hemit].
  cbv zeta in Hfst, Hemit. fold tv in Hfst, Hemit.
  assert (Hinactive : flagAssign && ast.isExpr n
                      && (types.IsValue tv && gclint.isPtrToNameType (types.Type' tv))
                      = false).
  { destruct Hoff as [-> | [-> | [-> | ->]]];
      rewrite ?andb_false_r, ?andb_false_l; reflexivity. }
  rewrite Hinactive in Hfst, Hemit. auto.
Qed.

(** The type expression [ir.Node] of a map type, on an empty stack, with
    the flag set. *)
Lemma visit_without_resolver_witness :
  fst (gclint.visit true sample.mapKey true [] (sample.passOf [] sample.mapInfo)) = Ok true.
Proof.
  apply (visit_without_resolver true sample.mapKey [] (sample.passOf [] sample.mapInfo)).
  right. right. left. vm_compute. reflexivity.
Defined.

(** X13.  Every diagnostic a visit adds is anchored at the position of
    the visited node and carries one of the three messages; a visit adds
    at most two diagnostics, and none at a pop. *)
Theorem visit_diagnostics_anchored (flagAssign : bool) (n : ast.Node) (push : bool)
    (stack : list ast.Node) (pass : analysis.Pass) :
  let new := spec.newDiagnostics pass (snd (gclint.visit flagAssign n push stack pass)) in
  Forall (fun d => analysis.Pos d = ast.Pos n /\
                   (analysis.Message d = gclint.msgMapKey \/
                    analysis.Message d = gclint.msgCompare \/
                    analysis.Message d = gclint.msgAssign)) new /\
  (length new <= 2)%nat /\
  (push = false -> new = []).
Proof.
  intros new. destruct pass as [files info ds]. destruct push.
  2:{ unfold new, spec.newDiagnostics. simpl. rewrite drop_all. auto. }
  destruct (visit_shape flagAssign n stack files info) as (r & extra & Hv & Hextra & _).
  assert (Hnew : new = spec.switchReports info n ++ extra).
  { unfold new, spec.newDiagnostics. rewrite Hv. simpl. apply drop_app_length. }
  rewrite Hnew.
  assert (Hsw : spec.switchReports info n = [] \/
                spec.switchReports info n = [analysis.mkDiagnostic (ast.Pos n) gclint.msgMapKey]
                \/ spec.switchReports info n
                   = [analysis.mkDiagnostic (ast.Pos n) gclint.msgCompare]).
  { destruct n; simpl; auto.
    - destruct (_ && _); auto.
    - destruct (gclint.isNodeType _); auto. }
  split; [|split; [|discriminate]].
  - apply Forall_app. split.
    + destruct Hsw as [-> | [-> | ->]];
        [apply Forall_nil | apply Forall_cons | apply Forall_cons];
        try apply Forall_nil; simpl; auto.
    + destruct Hextra as [-> | ->]; [apply Forall_nil | apply Forall_cons];
        try apply Forall_nil; simpl; auto.
  - rewrite length_app.
    destruct Hsw as [-> | [-> | ->]]; destruct Hextra as [-> | ->]; simpl; lia.
Qed.

(** ** The type classifier and the exemption test *)

Lemma isNamedObject_names (obj : types.Object) (pkgPath name name' : string) :
  gclint.isNamedObject obj pkgPath name = true ->
  name <> name' ->
  gclint.isNamedObject obj pkgPath name' = false.
Proof.
  intros H Hne. apply isNamedObject_true in H as (pkg & Hpkg & Hpath & Hname).
  apply not_true_is_false. intros H'.
  apply isNamedObject_true in H' as (pkg' & Hpkg' & Hpath' & Hname'). congruence.
Qed.

(** X14.  The three classes are disjoint: no type is at once the
    interface type Node and a pointer to Name or to Func, and no type is
    a pointer to both Name and Func. *)
Theorem classifiers_exclusive (typ : types.Type_) :
  (gclint.isNodeType typ = true ->
   gclint.isPtrToNameType typ = false /\ gclint.isPtrToFuncType typ = false) /\
  (gclint.isPtrToNameType typ = true ->
   gclint.isNodeType typ = false /\ gclint.isPtrToFuncType typ = false) /\
  (gclint.isPtrToFuncType typ = true ->
   gclint.isNodeType typ = false /\ gclint.isPtrToNameType typ = false).
Proof.
  unfold gclint.isNodeType, gclint.isPtrToNameType, gclint.isPtrToFuncType.
  destruct typ as [| |obj|elem| | | | | |]; simpl;
    try (repeat split; discriminate); try (repeat split; reflexivity).
  destruct elem as [| |obj| | | | | | |]; simpl;
    try (repeat split; discriminate).
  split; [discriminate|]. split; intros H; (split; [reflexivity|]).
  - apply (isNamedObject_names obj _ "Name" "Func" H). discriminate.
  - apply (isNamedObject_names obj _ "Func" "Name" H). discriminate.
Qed.

(** [*ir.Name] is neither [ir.Node] nor [*ir.Func]. *)
Lemma classifiers_exclusive_witness :
  gclint.isNodeType sample.ptrName = false /\ gclint.isPtrToFuncType sample.ptrName = false.
Proof.
  apply (proj1 (proj2 (classifiers_exclusive sample.ptrName))). reflexivity.
Defined.

(** X15.  The exemption test is true only for a selector whose selected
    identifier has an entry in [Uses] that is an object named Defn with
    the package path of ir.  It is false for every expression that is
    not a selector, for a selector without an entry in [Uses], and for
    an entry with another name, another package, or no package. *)
Theorem defn_test_false_otherwise (lval : ast.Node) (info : analysis.Info) :
  (~ spec.SelectsDefn info lval -> gclint.isNameDefnField lval info = false) /\
  (forall a X Sel,
      lval = ast.SelectorExpr a X Sel ->
      analysis.Uses info !! ast.IdentAddr Sel = None ->
      gclint.isNameDefnField lval info = false) /\
  (forall a X Sel kind pkg name t,
      lval = ast.SelectorExpr a X Sel ->
      analysis.Uses info !! ast.IdentAddr Sel = Some (types.mkObject kind pkg name t) ->
      pkg = None \/ name <> "Defn" \/
      (exists p, pkg = Some p /\ types.Path p <> gclint.irPkgPath) ->
      gclint.isNameDefnField lval info = false) /\
  (spec.isFunc lval = true \/ ast.isExpr lval = false ->
   gclint.isNameDefnField lval info = false).
Proof.
  assert (Hnot : ~ spec.SelectsDefn info lval -> gclint.isNameDefnField lval info = false).
  { intros H. apply not_true_is_false. rewrite isNameDefnField_true. exact H. }
  split; [exact Hnot|]. split; [|split].
  - intros a X Sel -> Huse. simpl. rewrite Huse. reflexivity.
  - intros a X Sel kind pkg name t -> Huse Hother. apply Hnot.
    intros (a' & X' & Sel' & kind' & pkg' & t' & Heq & Huse' & Hpath).
    injection Heq as <- <- <-. rewrite Huse in Huse'. injection Huse' as -> -> -> ->.
    destruct Hother as [H | [H | (p & H & Hp)]]; [discriminate | congruence |].
    injection H as <-. contradiction.
  - intros [H | H]; destruct lval; try discriminate; reflexivity.
Qed.

(** [v.Defn] where [Defn] resolves to a field of package gc. *)
Lemma defn_test_false_otherwise_witness :
  gclint.isNameDefnField sample.vDefn
    (sample.assignInfo (types.mkObject (types.Var true) (Some sample.gcPkg) "Defn" sample.tNode))
  = false.
Proof.
  apply (proj1 (proj2 (proj2 (defn_test_false_otherwise sample.vDefn
           (sample.assignInfo
              (types.mkObject (types.Var true) (Some sample.gcPkg) "Defn" sample.tNode)))))
           9%nat sample.v sample.DefnSel (types.Var true) (Some sample.gcPkg) "Defn"
           sample.tNode eq_refl).
  - vm_compute. reflexivity.
  - right. right. exists sample.gcPkg. split; [reflexivity | discriminate].
Defined.

(** A pop of the identifier [n] adds nothing. *)
Lemma visit_diagnostics_anchored_witness :
  spec.newDiagnostics (sample.passOf [] sample.nameInfo)
    (snd (gclint.visit true sample.n false [sample.exprStmt; sample.n]
            (sample.passOf [] sample.nameInfo))) = [].
Proof.
  apply (proj2 (proj2 (visit_diagnostics_anchored true sample.n false
                         [sample.exprStmt; sample.n] (sample.passOf [] sample.nameInfo)))).
  reflexivity.
Defined.

(** ** The run as a whole *)

Lemma pushes_app (es1 es2 : list inspector.event) :
  spec.pushes (es1 ++ es2) = spec.pushes es1 ++ spec.pushes es2.
Proof.
  induction es1 as [|[n|n] es1 IH]; simpl; [reflexivity | rewrite IH; reflexivity | exact IH].
Qed.

Lemma pushes_concat (ess : list (list inspector.event)) :
  spec.pushes (concat ess) = concat (map spec.pushes ess).
Proof.
  induction ess as [|es ess IH]; simpl; [reflexivity|].
  rewrite pushes_app, IH. reflexivity.
Qed.

(** The nodes a subtree enters: the node, then the nodes of its
    children, child by child. *)
Lemma pushes_traverse (n : ast.Node) :
  spec.pushes (inspector.traverse n)
  = n :: concat (map (fun c => spec.pushes (inspector.traverse c)) (ast.children n)).
Proof.
  rewrite traverse_children. cbn [spec.pushes].
  rewrite pushes_app, pushes_concat, map_map. simpl. rewrite app_nil_r. reflexivity.
Qed.

Lemma foldl_typeSwitch (nodes : list ast.Node) (files : list ast.Node) (info : analysis.Info)
    (ds : list analysis.Diagnostic) :
  fold_left (fun p n => gclint.typeSwitch n p) nodes (analysis.mkPass files info ds)
  = analysis.mkPass files info (ds ++ concat (map (spec.switchReports info) nodes)).
Proof.
  revert ds. induction nodes as [|n nodes IH]; intros ds; simpl.
  - rewrite app_nil_r. reflexivity.
  - rewrite typeSwitch_reports. simpl. rewrite IH, app_assoc. reflexivity.
Qed.

Lemma withoutMessage_app (msg : string) (l1 l2 : list analysis.Diagnostic) :
  spec.withoutMessage msg (l1 ++ l2) = spec.withoutMessage msg l1 ++ spec.withoutMessage msg l2.
Proof. apply List.filter_app. Qed.

Lemma withoutMessage_switchReports (info : analysis.Info) (n : ast.Node) :
  spec.withoutMessage gclint.msgAssign (spec.switchReports info n) = spec.switchReports info n.
Proof.
  destruct n; simpl; try reflexivity.
  - destruct (_ && _); reflexivity.
  - destruct (gclint.isNodeType _); reflexivity.
Qed.

(** The loop of the run outside a pruned subtree: what it appends, less
    the assignment diagnostics, is an initial part of the reports of the
    type switch on the nodes entered, and all of them when the loop
    returns; without the flag it returns. *)
Lemma loop_reports (flagAssign : bool) (files : list ast.Node) (info : analysis.Info)
    (events : list inspector.event) :
  forall stack : list ast.Node,
  exists r out rest,
    (forall ds,
        inspector.loop (gclint.visit flagAssign) events 0 stack
          (analysis.mkPass files info ds)
        = (r, analysis.mkPass files info (ds ++ out))) /\
    concat (map (spec.switchReports info) (spec.pushes events))
    = spec.withoutMessage gclint.msgAssign out ++ rest /\
    (r = Ok tt -> rest = []) /\
    (flagAssign = false -> r = Ok tt /\ spec.withoutMessage gclint.msgAssign out = out).
Proof.
  induction events as [|[n|n] events IH]; intros stack.
  - exists (Ok tt), [], []. repeat split; auto.
    intros ds. rewrite app_nil_r. reflexivity.
  - destruct (visit_shape flagAssign n (stack ++ [n]) files info)
      as (rv & extra & Hv & Hextra & Hrv & Hoff).
    assert (Hwext : spec.withoutMessage gclint.msgAssign extra = []).
    { destruct Hextra as [-> | ->]; reflexivity. }
    destruct Hrv as [-> | [v ->]].
    + destruct (IH (stack ++ [n])) as (r & out & rest & Hl & Hcat & Hok & Hoff').
      exists r, ((spec.switchReports info n ++ extra) ++ out), rest.
      split; [|split; [|split]].
      * intros ds. cbn [inspector.loop]. rewrite Hv, Hl, <- !app_assoc. reflexivity.
      * cbn [spec.pushes map concat].
        rewrite !withoutMessage_app, withoutMessage_switchReports, Hwext, app_nil_r.
        rewrite Hcat, <- !app_assoc. reflexivity.
      * exact Hok.
      * intros Hflag. destruct (Hoff Hflag) as [_ ->]. destruct (Hoff' Hflag) as [-> Hout].
        split; [reflexivity|].
        rewrite !withoutMessage_app, withoutMessage_switchReports, Hout. reflexivity.
    + exists (Panic v), (spec.switchReports info n ++ extra),
        (concat (map (spec.switchReports info) (spec.pushes events))).
      split; [|split; [|split]].
      * intros ds. cbn [inspector.loop]. rewrite Hv. reflexivity.
      * cbn [spec.pushes map concat].
        rewrite withoutMessage_app, withoutMessage_switchReports, Hwext, app_nil_r.
        reflexivity.
      * discriminate.
      * intros Hflag. destruct (Hoff Hflag) as [H _]. discriminate.
  - destruct (IH (removelast stack)) as (r & out & rest & Hl & Hcat & Hok & Hoff').
    exists r, out, rest. split; [|split; [|split]]; auto.
Qed.

(** X16.  Without the flag the run returns, whatever the files and the
    type information, and the pass it leaves is the pass given, taken
    through the type switch at every node entered, in the order of the
    traversal: the files in order, every node before its children, the
    children in order. *)
Theorem run_without_flag (files : list ast.Node) (info : analysis.Info)
    (ds : list analysis.Diagnostic) :
  let pass := analysis.mkPass files info ds in
  let entered := spec.pushes (inspector.New files) in
  gclint.run false pass = (Ok tt, fold_left (fun p n => gclint.typeSwitch n p) entered pass) /\
  entered = concat (map (fun f => spec.pushes (inspector.traverse f)) files) /\
  (forall n, spec.pushes (inspector.traverse n)
             = n :: concat (map (fun c => spec.pushes (inspector.traverse c))
                              (ast.children n))).
Proof.
  intros pass entered. split; [|split].
  - unfold gclint.run, inspector.WithStack, pass. cbn [analysis.Files].
    destruct (loop_reports false files info (inspector.New files) [])
      as (r & out & rest & Hl & Hcat & Hok & Hoff).
    destruct (Hoff eq_refl) as [-> Hout].
    rewrite Hl, foldl_typeSwitch. fold entered in Hcat.
    rewrite Hcat, Hout, (Hok eq_refl), app_nil_r. reflexivity.
  - unfold entered, inspector.New. rewrite pushes_concat, map_map. reflexivity.
  - exact pushes_traverse.
Qed.

(** X17.  Setting the flag only adds assignment diagnostics: what the
    run with the flag appends, less the assignment diagnostics, is an
    initial part of what the run without the flag appends, in the same
    order, and all of it when the run with the flag returns. *)
Theorem assign_flag_only_adds_assignments (files : list ast.Node) (info : analysis.Info)
    (ds : list analysis.Diagnostic) :
  let pass := analysis.mkPass files info ds in
  let on := gclint.run true pass in
  let off := gclint.run false pass in
  exists rest,
    spec.newDiagnostics pass (snd off)
    = spec.withoutMessage gclint.msgAssign (spec.newDiagnostics pass (snd on)) ++ rest /\
    (fst on = Ok tt -> rest = []).
Proof.
  intros pass on off. unfold on, off, gclint.run, inspector.WithStack, pass.
  cbn [analysis.Files].
  destruct (loop_reports true files info (inspector.New files) [])
    as (r & out & rest & Hl & Hcat & Hok & _).
  destruct (loop_reports false files info (inspector.New files) [])
    as (r' & out' & rest' & Hl' & Hcat' & Hok' & Hoff').
  destruct (Hoff' eq_refl) as [-> Hout'].
  rewrite Hl, Hl'. unfold spec.newDiagnostics. cbn [fst snd analysis.Diagnostics].
  rewrite !drop_app_length. exists rest. split; [|exact Hok].
  rewrite <- Hcat, Hcat', Hout', (Hok' eq_refl), app_nil_r. reflexivity.
Qed.

(** The sample file: the run with the flag returns, and without its two
    assignment diagnostics it reports what the run without the flag
    reports. *)
Lemma assign_flag_only_adds_assignments_witness :
  spec.newDiagnostics (sample.passOf [sample.file] sample.fileInfo)
    (snd (gclint.run false (sample.passOf [sample.file] sample.fileInfo)))
  = spec.withoutMessage gclint.msgAssign
      (spec.newDiagnostics (sample.passOf [sample.file] sample.fileInfo)
         (snd (gclint.run true (sample.passOf [sample.file] sample.fileInfo)))).
Proof.
  destruct (assign_flag_only_adds_assignments [sample.file] sample.fileInfo [])
    as (rest & Heq & Hrest).
  rewrite (Hrest ltac:(vm_compute; reflexivity)), app_nil_r in Heq. exact Heq.
Defined.

(** X18.  Under a parent that is not a return statement, the answer of
    the resolver depends on the parent and the expression only: the rest
    of the stack plays no part. *)
Theorem resolver_reads_parent_only (pre pre' : list ast.Node) (parent n : ast.Node)
    (info : analysis.Info) :
  (forall a Return Results, parent <> ast.ReturnStmt a Return Results) ->
  gclint.assignedToNode (pre ++ [parent; n]) info
  = gclint.assignedToNode (pre' ++ [parent; n]) info.
Proof.
  intros Hparent. unfold gclint.assignedToNode.
  rewrite !index_top, !index_parent. cbn [bindRes].
  destruct parent; try reflexivity.
  exfalso. exact (Hparent _ _ _ eq_refl).
Qed.

(** The assignment [x = n] at the top of a file and deep inside a
    function. *)
Lemma resolver_reads_parent_only_witness :
  gclint.assignedToNode ([] ++ [sample.assignX; sample.n])
    (sample.assignInfo sample.DefnField)
  = gclint.assignedToNode ([sample.file; sample.outerDecl] ++ [sample.assignX; sample.n])
      (sample.assignInfo sample.DefnField).
Proof.
  apply (resolver_reads_parent_only [] [sample.file; sample.outerDecl] sample.assignX sample.n
           (sample.assignInfo sample.DefnField)).
  intros a Return Results H. discriminate.
Defined.
